(** * SCD Message Center: the routing core of msgcenter.cpp

    A shallow embedding of [SCDMsgCenter] (src/msgcenter.cpp): the two
    registries ([clients], [senders]), the signals the object emits and the
    command dispatcher, followed by the properties of the specification that
    concern them.

    Conventions of the embedding.
    - A [QString] is a [string]; the characters of the model are the ASCII
      ones, so [toLower] and [trimmed] are Qt's functions restricted to them.
    - A C++ [int] (socket descriptor, list index, mode flag) is a [Z]; no
      arithmetic is done on them apart from the loop counter of [getClient].
    - A member function is a computation in the monad [M]: it reads and
      writes the object ([clients], [senders]), appends to the log of emitted
      signals, and may stop on a failed Qt range assertion ([Crash]).
    - The mutex taken by the public entry points is not modelled: every call
      runs to completion on the state it is given. *)

From Stdlib Require Import ZArith Ascii String DecimalString Lia.
From stdpp Require Import base list strings.

Local Open Scope Z_scope.

(** ** QString and QStringList, as far as the class uses them *)

Module QString.

Definition LFc : ascii := "010"%char.
Definition CRc : ascii := "013"%char.

(** The one-character strings "\n" and "\r\n" of the source. *)
Definition nl : string := String LFc "".
Definition crnl : string := String CRc (String LFc "").

(** [QChar::isSpace] on ASCII: tab, line feed, vertical tab, form feed,
    carriage return and space. *)
Definition isSpace (c : ascii) : bool :=
  let n := N_of_ascii c in
  ((9 <=? n) && (n <=? 13) || (n =? 32))%N.

Definition isUpper (c : ascii) : bool :=
  let n := N_of_ascii c in ((65 <=? n) && (n <=? 90))%N.

Definition toLower_char (c : ascii) : ascii :=
  if isUpper c then ascii_of_N (N_of_ascii c + 32) else c.

(** [QString::toLower]. *)
Fixpoint toLower (s : string) : string :=
  match s with
  | EmptyString => EmptyString
  | String c s' => String (toLower_char c) (toLower s')
  end.

Definition isEmpty (s : string) : bool :=
  match s with EmptyString => true | _ => false end.

Fixpoint trimLeft (s : string) : string :=
  match s with
  | EmptyString => EmptyString
  | String c s' => if isSpace c then trimLeft s' else s
  end.

Fixpoint trimRight (s : string) : string :=
  match s with
  | EmptyString => EmptyString
  | String c s' =>
      let r := trimRight s' in
      if isSpace c && isEmpty r then EmptyString else String c r
  end.

(** [QString::trimmed]: whitespace removed from the start and the end. *)
Definition trimmed (s : string) : string := trimRight (trimLeft s).

(** [QString::split(" ", QString::SkipEmptyParts)]: the separator is the
    single space character; [cur] is the part being read. *)
Fixpoint split_from (cur : string) (s : string) : list string :=
  match s with
  | EmptyString => if isEmpty cur then [] else [cur]
  | String c s' =>
      if Ascii.eqb c " "
      then (if isEmpty cur then split_from "" s' else cur :: split_from "" s')
      else split_from (cur +:+ String c "") s'
  end.

Definition split (s : string) : list string := split_from "" s.

(** [QStringList::join(" ")]. *)
Fixpoint join (l : list string) : string :=
  match l with
  | [] => ""
  | [x] => x
  | x :: l' => x +:+ " " +:+ join l'
  end.

(** [QString::remove(0,1)]. *)
Definition remove_first (s : string) : string :=
  match s with EmptyString => EmptyString | String _ s' => s' end.

(** [QString::number(int)]: decimal, with a minus sign when negative. *)
Definition number (n : Z) : string := NilZero.string_of_int (Z.to_int n).

(** No space character occurs in [s]. *)
Fixpoint noSpace (s : string) : bool :=
  match s with
  | EmptyString => true
  | String c s' => negb (Ascii.eqb c " ") && noSpace s'
  end.

End QString.

Import QString.

(** ** The object: records, signals and the monad of member functions *)

(** [SCDMsgCenter::Client]. The struct is declared in msgcenter.h; its fields
    are the ones msgcenter.cpp reads and writes. [mode] is 0 in console mode
    and 1 when the client spies a sender; [index] is the position found by
    [getClient], -1 when there is none. *)
Record Client := mkClient {
  socketDescriptor : Z;
  name : string;
  user : string;
  admin : Z;
  mode : Z;
  Sender : string;
  index : Z
}.

Definition set_index (c : Client) (i : Z) : Client :=
  mkClient (socketDescriptor c) (name c) (user c) (admin c) (mode c) (Sender c) i.

Definition set_mode (c : Client) (m : Z) : Client :=
  mkClient (socketDescriptor c) (name c) (user c) (admin c) m (Sender c) (index c).

Definition set_Sender (c : Client) (s : string) : Client :=
  mkClient (socketDescriptor c) (name c) (user c) (admin c) (mode c) s (index c).

(** A default-constructed [Client]: the strings are null; the integer fields
    are not initialised by msgcenter.cpp, and every path that reads one of
    them has assigned it before. *)
Definition blankClient : Client := mkClient 0 "" "" 0 0 "" 0.

(** The members [clients] (a [QList<Client>]) and [senders] (a
    [QStringList]). *)
Record SCDMsgCenter := mkCenter {
  clients : list Client;
  senders : list string
}.

Definition emptyCenter : SCDMsgCenter := mkCenter [] [].

(** The two signals of the class. *)
Inductive Signal :=
| messageToClient_signal (msg : string) (clientSocketDescriptor : Z)
| commandToSender_signal (cmd : string) (sender : string).

(** The Qt range assertions a member function can run into. *)
Inductive QtAssert :=
| QList_index_out_of_range      (* QList<T>::operator[] *)
| QList_replace_out_of_range    (* QList<T>::replace *)
| QString_at_out_of_range.      (* QString::at *)

Inductive Outcome (A : Type) :=
| Ok (a : A) (mc : SCDMsgCenter) (emitted : list Signal)
| Crash (e : QtAssert).
Arguments Ok {A} a mc emitted.
Arguments Crash {A} e.

Definition M (A : Type) : Type := SCDMsgCenter -> Outcome A.

Definition ret {A} (a : A) : M A := fun mc => Ok a mc [].

Definition bind {A B} (m : M A) (f : A -> M B) : M B :=
  fun mc =>
    match m mc with
    | Ok a mc1 e1 =>
        match f a mc1 with
        | Ok b mc2 e2 => Ok b mc2 (e1 ++ e2)
        | Crash e => Crash e
        end
    | Crash e => Crash e
    end.

Notation "x <- c ;; k" := (bind c (fun x => k))
  (at level 100, c at next level, right associativity).
Notation "c ;; k" := (bind c (fun _ => k))
  (at level 100, right associativity).

Definition emit (s : Signal) : M unit := fun mc => Ok tt mc [s].
Definition raise {A} (e : QtAssert) : M A := fun _ => Crash e.
Definition get_clients : M (list Client) := fun mc => Ok (clients mc) mc [].
Definition get_senders : M (list string) := fun mc => Ok (senders mc) mc [].
Definition put_clients (cs : list Client) : M unit :=
  fun mc => Ok tt (mkCenter cs (senders mc)) [].
Definition put_senders (ss : list string) : M unit :=
  fun mc => Ok tt (mkCenter (clients mc) ss) [].

Definition in_range {A} (i : Z) (l : list A) : bool :=
  (0 <=? i) && (i <? Z.of_nat (length l)).

(** [list[i]] on a [QStringList]: asserts that [i] is in range. *)
Definition QStringList_index (l : list string) (i : Z) : M string :=
  if in_range i l
  then match l !! Z.to_nat i with Some s => ret s | None => raise QList_index_out_of_range end
  else raise QList_index_out_of_range.

(** [s.at(i)]: asserts that [i] is in range. *)
Definition QString_at (s : string) (i : Z) : M ascii :=
  if (0 <=? i) && (i <? Z.of_nat (String.length s))
  then match String.get (Z.to_nat i) s with Some c => ret c | None => raise QString_at_out_of_range end
  else raise QString_at_out_of_range.

(** [clients.replace(i, c)]: asserts that [i] is in range. *)
Definition clients_replace (i : Z) (c : Client) : M unit :=
  cs <- get_clients ;;
  if in_range i cs then put_clients (<[Z.to_nat i := c]> cs)
  else raise QList_replace_out_of_range.

(** [clients.removeAt(i)]: does nothing when [i] is out of range. *)
Definition clients_removeAt (i : Z) : M unit :=
  cs <- get_clients ;;
  if in_range i cs then put_clients (delete (Z.to_nat i) cs) else ret tt.

(** [QStringList::removeOne]: the first occurrence goes. *)
Fixpoint removeOne (x : string) (l : list string) : list string :=
  match l with
  | [] => []
  | y :: l' => if String.eqb y x then l' else y :: removeOne x l'
  end.

(** [QStringList::contains], case sensitive. *)
Definition contains (l : list string) (x : string) : bool :=
  bool_decide (x ∈ l).

(** ** Member functions of SCDMsgCenter *)

(** Modelled from the spec: the macro [LF] is defined in msgcenter.h, which is
    not among the sources; the specification calls it one line-separator
    character. *)
Definition LF : string := nl.

(** The loop of [getClient], from position [n] on. *)
Fixpoint getClient_from (n : Z) (cs : list Client) (sd : Z) : Client :=
  match cs with
  | [] => set_index blankClient (-1)
  | c :: cs' =>
      if socketDescriptor c =? sd then set_index c n
      else getClient_from (n + 1) cs' sd
  end.

Definition getClient (sd : Z) : M Client :=
  cs <- get_clients ;; ret (getClient_from 0 cs sd).

Definition getSenderList : M (list string) := get_senders.

Definition getHelpString : string :=
  " Command Help:" +:+ nl +:+ nl +:+
  "   - list                    => get a list of message senders" +:+ nl +:+
  "   - spy <sender id>         => receive message only by sender identified by sender id" +:+ nl +:+
  "   - <cr> (carriage return)  => stop realtime message receiving and show help" +:+ nl +:+
  "   - help                    => show this help" +:+ nl +:+
  "   - exit                    => close connection to message center" +:+ nl +:+
  "   - @<sender id> <command>  => sends a string to sender by message center" +:+ nl +:+
  "   - ping                    => message center reply pong" +:+ nl +:+
  "   - <unkown command>        => return echo of command" +:+ nl.

Definition getPrompt (sd : Z) : M string :=
  client <- getClient sd ;;
  if index client >? -1 then ret (nl +:+ name client +:+ ":> ") else ret "".

Definition sendMessageToClient (msg : string) (sd : Z) : M unit :=
  emit (messageToClient_signal msg sd).

(** The loop of [processMessage] over [clients]. *)
Fixpoint processMessage_loop (cs : list Client) (msg sender : string) : M unit :=
  match cs with
  | [] => ret tt
  | client :: cs' =>
      (if String.eqb (Sender client) sender && (mode client =? 1)
       then sendMessageToClient msg (socketDescriptor client)
       else ret tt) ;;
      processMessage_loop cs' msg sender
  end.

Definition processMessage (msg sender : string) : M unit :=
  cs <- get_clients ;; processMessage_loop cs msg sender.

Definition unregisterClient (sd : Z) : M unit :=
  client <- getClient sd ;;
  if index client >? -1 then clients_removeAt (index client) else ret tt.

Definition unregisterMessageSender (sender : string) : M unit :=
  ss <- get_senders ;; put_senders (removeOne sender ss).

Definition registerClient (sd : Z) : M unit :=
  client <- getClient sd ;;
  if index client =? -1 then
    let client :=
      mkClient sd ("Host-" +:+ number sd) "Anonymous" 0 0 (Sender client) (index client) in
    cs <- get_clients ;;
    put_clients (cs ++ [client]) ;;
    prompt <- getPrompt sd ;;
    let msg := nl +:+ nl +:+ "Message Center 1.0" +:+ nl +:+ nl +:+ getHelpString +:+ prompt in
    sendMessageToClient msg sd
  else ret tt.

Definition registerMessageSender (sender : string) : M unit :=
  ss <- get_senders ;;
  if negb (contains ss sender) then put_senders (ss ++ [sender]) else ret tt.

(** The listing built by the "list" branch of [processCommand]. *)
Fixpoint list_lines (ss : list string) : string :=
  match ss with
  | [] => ""
  | s :: ss' => "   - " +:+ s +:+ nl +:+ list_lines ss'
  end.

Definition processCommand (cmd : string) (sd : Z) : M unit :=
  client <- getClient sd ;;
  let list := split cmd in
  cmd <- QStringList_index list 0 ;;
  let cmd := toLower cmd in
  if String.eqb cmd crnl || String.eqb cmd nl then
    let client := set_mode client 0 in
    clients_replace (index client) client ;;
    prompt <- getPrompt sd ;;
    sendMessageToClient (nl +:+ getHelpString +:+ prompt) sd
  else if String.eqb (trimmed cmd) "spy" then
    if 1 <? Z.of_nat (length list) then
      arg <- QStringList_index list 1 ;;
      let sender := trimmed arg in
      ss <- get_senders ;;
      if contains ss sender then
        let client := set_mode (set_Sender client sender) 1 in
        clients_replace (index client) client
      else
        prompt <- getPrompt sd ;;
        sendMessageToClient (nl +:+ "Sender not found: " +:+ sender +:+ prompt) sd
    else ret tt
  else if String.eqb (trimmed cmd) "exit" then
    sendMessageToClient cmd sd
  else if String.eqb (trimmed cmd) "list" then
    ss <- get_senders ;;
    prompt <- getPrompt sd ;;
    sendMessageToClient (nl +:+ list_lines ss +:+ prompt) sd
  else if String.eqb (trimmed cmd) "ping" then
    sendMessageToClient "pong" sd
  else if String.eqb (trimmed cmd) "help" then
    prompt <- getPrompt sd ;;
    sendMessageToClient (nl +:+ getHelpString +:+ prompt) sd
  else
    c0 <- QString_at (trimmed cmd) 0 ;;
    if Ascii.eqb c0 "@" then
      let sender := remove_first (trimmed cmd) in
      let list := tail list in
      let cmd := trimmed (join list) in
      ss <- get_senders ;;
      if contains ss sender then
        let client := set_mode (set_Sender client sender) 1 in
        clients_replace (index client) client ;;
        emit (commandToSender_signal cmd sender)
      else
        prompt <- getPrompt sd ;;
        sendMessageToClient (nl +:+ "Sender not found: " +:+ sender +:+ prompt) sd
    else
      if index client >? -1 then sendMessageToClient cmd sd else ret tt.

(** The public entry points take the mutex and call the private members. *)
Definition addClient (sd : Z) : M unit := registerClient sd.
Definition removeClient (sd : Z) : M unit := unregisterClient sd.
Definition addSender (sender : string) : M unit := registerMessageSender sender.
Definition removeSender (sender : string) : M unit := unregisterMessageSender sender.
Definition sendCommand (cmd : string) (sd : Z) : M unit := processCommand cmd sd.

Definition postMessage (msg sender : string) (prependNewLine : bool) : M unit :=
  let msg := sender +:+ ": " +:+ msg in
  let msg := if prependNewLine then LF +:+ msg else msg in
  processMessage msg sender.

(** The state and the signals after a run, for the examples below. *)
Definition state_after {A} (m : M A) (mc : SCDMsgCenter) : option SCDMsgCenter :=
  match m mc with Ok _ mc' _ => Some mc' | Crash _ => None end.

Definition emitted_by {A} (m : M A) (mc : SCDMsgCenter) : option (list Signal) :=
  match m mc with Ok _ _ e => Some e | Crash _ => None end.

(** Senders "A" then "B" registered, then client 42 connected. *)
Definition center_AB_42 : SCDMsgCenter :=
  Eval vm_compute in
    match (addSender "A" ;; addSender "B" ;; addClient 42) emptyCenter with
    | Ok _ mc _ => mc
    | Crash _ => emptyCenter
    end.

(** ** Vocabulary of the properties *)

(** A session record exists for the connection [sd]. *)
Definition connected (sd : Z) (mc : SCDMsgCenter) : Prop :=
  sd ∈ socketDescriptor <$> clients mc.

(** The record of a session that spies [sender]. *)
Definition Spying (sender : string) (c : Client) : Prop :=
  mode c = 1 ∧ Sender c = sender.

#[global] Instance Spying_dec sender c : Decision (Spying sender c).
Proof. unfold Spying. apply _. Defined.

(** An argument as a client types it: one non-empty part of the line, with no
    space inside and no white space around it. *)
Definition is_token (s : string) : bool :=
  negb (isEmpty s) && noSpace s && String.eqb (trimmed s) s.

(** The verb [cmd] (already in lower case) reaches the echo branch of
    [processCommand]: it is no line terminator, its trimmed form is none of
    the five verbs, is not empty and does not start with '@'. *)
Definition unrecognized (cmd : string) : bool :=
  negb (String.eqb cmd crnl) && negb (String.eqb cmd nl) &&
  negb (String.eqb (trimmed cmd) "spy") && negb (String.eqb (trimmed cmd) "exit") &&
  negb (String.eqb (trimmed cmd) "list") && negb (String.eqb (trimmed cmd) "ping") &&
  negb (String.eqb (trimmed cmd) "help") &&
  match trimmed cmd with
  | EmptyString => false
  | String c _ => negb (Ascii.eqb c "@")
  end.

(** The tokenizer in the words of the specification: the line is split on
    white space, empty tokens are dropped. *)
Fixpoint words_from (cur : string) (s : string) : list string :=
  match s with
  | EmptyString => if isEmpty cur then [] else [cur]
  | String c s' =>
      if isSpace c
      then (if isEmpty cur then words_from "" s' else cur :: words_from "" s')
      else words_from (cur +:+ String c "") s'
  end.

(** The verb in the words of the specification: the first token delimited by
    white space, in lower case. *)
Definition spec_verb (line : string) : string :=
  toLower (hd "" (words_from "" line)).

Definition tab : string := String "009"%char "".

(** No duplicate sender, no two records for one connection. *)
Definition registries_wf (mc : SCDMsgCenter) : Prop :=
  NoDup (senders mc) ∧ NoDup (socketDescriptor <$> clients mc).

(** Sender "A" registered, clients 1, 2 and 3 connected in that order, each
    having sent "spy A". *)
Definition center_three_spies : SCDMsgCenter :=
  Eval vm_compute in
    match (addSender "A" ;; addClient 1 ;; addClient 2 ;; addClient 3 ;;
           sendCommand "spy A" 1 ;; sendCommand "spy A" 2 ;; sendCommand "spy A" 3)
            emptyCenter with
    | Ok _ mc _ => mc
    | Crash _ => emptyCenter
    end.

#[global] Instance connected_dec sd mc : Decision (connected sd mc).
Proof. unfold connected. apply _. Defined.

(** The record [registerClient] appends for a new connection [sd]. *)
Definition defaultClient (sd : Z) : Client :=
  mkClient sd ("Host-" +:+ number sd) "Anonymous" 0 0 "" (-1).

(** The greeting sent to a new connection. *)
Definition greeting (sd : Z) : string :=
  nl +:+ nl +:+ "Message Center 1.0" +:+ nl +:+ nl +:+ getHelpString +:+
  nl +:+ "Host-" +:+ number sd +:+ ":> ".

(** The calls the transport and the senders make on the object, and the
    states they lead to from the empty one. *)
Inductive Call :=
| CallAddClient (sd : Z)
| CallRemoveClient (sd : Z)
| CallAddSender (sender : string)
| CallRemoveSender (sender : string)
| CallSendCommand (cmd : string) (sd : Z)
| CallPostMessage (msg sender : string) (prependNewLine : bool).

Definition call (c : Call) : M unit :=
  match c with
  | CallAddClient sd => addClient sd
  | CallRemoveClient sd => removeClient sd
  | CallAddSender s => addSender s
  | CallRemoveSender s => removeSender s
  | CallSendCommand cmd sd => sendCommand cmd sd
  | CallPostMessage msg s p => postMessage msg s p
  end.

Inductive reachable : SCDMsgCenter -> Prop :=
| reachable_empty : reachable emptyCenter
| reachable_call (mc mc' : SCDMsgCenter) (c : Call) (out : list Signal) :
    reachable mc -> call c mc = Ok tt mc' out -> reachable mc'.

(** The fields [registerClient] gives a record, which no member function
    writes afterwards, and the two values of the mode flag. *)
Definition record_ok (c : Client) : Prop :=
  name c = "Host-" +:+ number (socketDescriptor c) /\
  user c = "Anonymous" /\ admin c = 0 /\ (mode c = 0 \/ mode c = 1).

(** The signal is a message for the connection [sd]. *)
Definition to_client (sd : Z) (s : Signal) : bool :=
  match s with
  | messageToClient_signal _ sd' => sd' =? sd
  | commandToSender_signal _ _ => false
  end.

(** The first part of a line can be dispatched: it is a line terminator, or
    it does not trim to the empty string. *)
Definition dispatchable (tok : string) : bool :=
  String.eqb (toLower tok) crnl || String.eqb (toLower tok) nl ||
  negb (isEmpty (trimmed (toLower tok))).

(** The state after a sequence of calls, when none of them stops. *)
Fixpoint run_calls (cs : list Call) (mc : SCDMsgCenter) : option SCDMsgCenter :=
  match cs with
  | [] => Some mc
  | c :: cs' =>
      match call c mc with
      | Ok _ mc' _ => run_calls cs' mc'
      | Crash _ => None
      end
  end.

(** The prompt [getPrompt] computes for the connection [sd]. *)
Definition prompt_of (sd : Z) (mc : SCDMsgCenter) : string :=
  if decide (connected sd mc)
  then nl +:+ name (getClient_from 0 (clients mc) sd) +:+ ":> "
  else "".

(** The signals a [postMessage] call emits. *)
Definition published (msg sender : string) (prependNewLine : bool)
           (mc : SCDMsgCenter) : list Signal :=
  match postMessage msg sender prependNewLine mc with
  | Ok _ _ out => out
  | Crash _ => []
  end.

(** The text [postMessage] composes. *)
Definition composed (msg sender : string) (prependNewLine : bool) : string :=
  if prependNewLine then LF +:+ sender +:+ ": " +:+ msg else sender +:+ ": " +:+ msg.

(** The record of the connection [sd] and its position: the first record of
    the list whose descriptor is [sd], when there is one. *)
Definition record_of (sd : Z) (mc : SCDMsgCenter) : option (nat * Client) :=
  list_find (fun c => socketDescriptor c = sd) (clients mc).

(** The record [c0] of a connection once it spies [s] from position [k]:
    descriptor, name, user and admin flag kept, mode 1, sender [s]. *)
Definition spying_record (c0 : Client) (s : string) (k : nat) : Client :=
  mkClient (socketDescriptor c0) (name c0) (user c0) (admin c0) 1 s (Z.of_nat k).

(** Senders "A" and "a" registered, clients 1 then 2 connected. *)
Definition center_Aa_12 : SCDMsgCenter :=
  Eval vm_compute in
    match (addSender "A" ;; addSender "a" ;; addClient 1 ;; addClient 2) emptyCenter with
    | Ok _ mc _ => mc
    | Crash _ => emptyCenter
    end.

(** * Properties *)

Example toLower_PING : toLower "PING" = "ping".
Proof. reflexivity. Qed.

Example trimmed_ex : trimmed ("  spy" +:+ crnl) = "spy".
Proof. reflexivity. Qed.

Example split_ex : split "  foo  bar baz " = ["foo"; "bar"; "baz"].
Proof. reflexivity. Qed.

Example number_ex : number 42 = "42" /\ number (-7) = "-7" /\ number 0 = "0".
Proof. repeat split; reflexivity. Qed.

Example center_AB_42_eq :
  center_AB_42 =
  mkCenter [mkClient 42 "Host-42" "Anonymous" 0 0 "" (-1)] ["A"; "B"].
Proof. reflexivity. Qed.

Example ping_42 :
  processCommand "ping" 42 center_AB_42 =
  Ok tt center_AB_42 [messageToClient_signal "pong" 42].
Proof. vm_compute. reflexivity. Qed.

(** ** The lookup [getClient] *)

Lemma getClient_from_not_found n cs sd :
  sd ∉ socketDescriptor <$> cs ->
  getClient_from n cs sd = set_index blankClient (-1).
Proof.
  revert n. induction cs as [|c cs IH]; intros n Hnin; simpl; [done|].
  rewrite fmap_cons, not_elem_of_cons in Hnin. destruct Hnin as [Hne Hnin].
  destruct (Z.eqb_spec (socketDescriptor c) sd) as [Heq|_]; [congruence|].
  now apply IH.
Qed.

(** When a record exists, the lookup returns the first one, with its
    position in [index]. *)
Lemma getClient_from_found n cs sd :
  0 <= n -> sd ∈ socketDescriptor <$> cs ->
  exists k c,
    cs !! k = Some c /\ socketDescriptor c = sd /\
    getClient_from n cs sd = set_index c (n + Z.of_nat k) /\
    (forall j c', (j < k)%nat -> cs !! j = Some c' -> socketDescriptor c' <> sd).
Proof.
  revert n. induction cs as [|c cs IH]; intros n Hn Hin; simpl.
  - rewrite fmap_nil in Hin. now apply elem_of_nil in Hin.
  - destruct (Z.eqb_spec (socketDescriptor c) sd) as [Heq|Hne].
    + exists 0%nat, c. repeat split; try done.
      * f_equal. lia.
      * intros j c' Hj. lia.
    + rewrite fmap_cons, elem_of_cons in Hin. destruct Hin as [Heq|Hin]; [congruence|].
      destruct (IH (n + 1) ltac:(lia) Hin) as (k & c1 & Hk & Hsd & Hget & Hfirst).
      exists (S k), c1. repeat split; try done.
      * rewrite Hget. f_equal. lia.
      * intros [|j] c' Hj Hl; simpl in Hl.
        -- now injection Hl as <-.
        -- apply (Hfirst j); [lia|done].
Qed.

Lemma getClient_index_sentinel mc sd :
  ~ connected sd mc -> index (getClient_from 0 (clients mc) sd) = -1.
Proof. intros H. now rewrite getClient_from_not_found. Qed.

Lemma getClient_index_found mc sd :
  connected sd mc ->
  let c := getClient_from 0 (clients mc) sd in
  0 <= index c /\ in_range (index c) (clients mc) = true /\
  socketDescriptor c = sd /\
  exists c0, clients mc !! Z.to_nat (index c) = Some c0 /\ c = set_index c0 (index c).
Proof.
  intros H. destruct (getClient_from_found 0 (clients mc) sd ltac:(lia) H)
    as (k & c & Hk & Hsd & Hget & _).
  rewrite Z.add_0_l in Hget. cbv zeta. rewrite Hget. simpl.
  apply lookup_lt_Some in Hk as Hlt.
  repeat split; try lia; try done.
  - unfold in_range. apply andb_true_intro. split; [apply Z.leb_le|apply Z.ltb_lt]; lia.
  - exists c. now rewrite Nat2Z.id.
Qed.

(** ** Publishing: [postMessage] and [processMessage] *)

Lemma subscribed_test_Spying sender c :
  String.eqb (Sender c) sender && (mode c =? 1) = true <-> Spying sender c.
Proof.
  unfold Spying. rewrite andb_true_iff, String.eqb_eq, Z.eqb_eq. tauto.
Qed.

Lemma processMessage_loop_fanout cs msg sender mc :
  processMessage_loop cs msg sender mc =
  Ok tt mc
     (map (fun c => messageToClient_signal msg (socketDescriptor c))
          (filter (Spying sender) cs)).
Proof.
  induction cs as [|c cs IH]; simpl; [done|].
  unfold bind. rewrite filter_cons.
  destruct (String.eqb (Sender c) sender && (mode c =? 1)) eqn:Htest.
  - apply subscribed_test_Spying in Htest.
    rewrite decide_True by done. simpl. now rewrite IH.
  - rewrite decide_False.
    + simpl. now rewrite IH.
    + intros HS. apply subscribed_test_Spying in HS. congruence.
Qed.

Lemma filter_none {A} (P : A -> Prop) `{!forall x, Decision (P x)} (l : list A) :
  Forall (fun x => ~ P x) l -> filter P l = [].
Proof.
  induction 1 as [|x l Hx _ IH]; [done|].
  now rewrite filter_cons, decide_False.
Qed.

(** C1. Publishing text [t] under sender id [s] composes "s: t", with the
    line separator in front of the sender label when the flag is set, and
    delivers it to exactly the sessions that spy [s], in the order of the
    session list; the sender registry is not consulted and the object is left
    as it was, so with no session spying [s] nothing is delivered. *)
Theorem postMessage_delivery (t s : string) (p : bool) (mc : SCDMsgCenter) :
  let text := if p then nl +:+ s +:+ ": " +:+ t else s +:+ ": " +:+ t in
  postMessage t s p mc =
    Ok tt mc (map (fun c => messageToClient_signal text (socketDescriptor c))
                  (filter (Spying s) (clients mc)))
  /\ (Forall (fun c => ~ Spying s c) (clients mc) ->
      postMessage t s p mc = Ok tt mc []).
Proof.
  cbv zeta.
  assert (Hrun : postMessage t s p mc =
    Ok tt mc (map (fun c => messageToClient_signal
                     (if p then nl +:+ s +:+ ": " +:+ t else s +:+ ": " +:+ t)
                     (socketDescriptor c))
                  (filter (Spying s) (clients mc)))).
  { unfold postMessage, processMessage, get_clients, bind, LF.
    rewrite processMessage_loop_fanout. now destruct p. }
  split; [exact Hrun|].
  intros Hnone. rewrite Hrun. f_equal.
  now rewrite filter_none.
Qed.

Lemma postMessage_delivery_witness :
  postMessage "hi" "A" false center_three_spies =
    Ok tt center_three_spies
       [messageToClient_signal "A: hi" 1; messageToClient_signal "A: hi" 2;
        messageToClient_signal "A: hi" 3]
  /\ postMessage "hi" "ghost" true center_three_spies = Ok tt center_three_spies [].
Proof.
  split.
  - exact (proj1 (postMessage_delivery "hi" "A" false center_three_spies)).
  - apply (proj2 (postMessage_delivery "hi" "ghost" true center_three_spies)).
    repeat constructor; intros [_ H]; discriminate H.
Defined.

(** ** Command dispatch: fixed lines *)

(** C8. The lines "PING", "Ping" and "ping" of an existing session are each
    answered by exactly "pong", with no prompt, and the object is left as it
    was. *)
Theorem ping_any_case (mc : SCDMsgCenter) (sd : Z) :
  connected sd mc ->
  processCommand "PING" sd mc = Ok tt mc [messageToClient_signal "pong" sd] /\
  processCommand "Ping" sd mc = Ok tt mc [messageToClient_signal "pong" sd] /\
  processCommand "ping" sd mc = Ok tt mc [messageToClient_signal "pong" sd].
Proof. intros _. repeat split; reflexivity. Qed.

Lemma ping_any_case_witness :
  processCommand "PING" 42 center_AB_42 =
    Ok tt center_AB_42 [messageToClient_signal "pong" 42] /\
  processCommand "Ping" 42 center_AB_42 =
    Ok tt center_AB_42 [messageToClient_signal "pong" 42] /\
  processCommand "ping" 42 center_AB_42 =
    Ok tt center_AB_42 [messageToClient_signal "pong" 42].
Proof.
  apply (ping_any_case center_AB_42 42).
  unfold connected. simpl. apply list_elem_of_here.
Defined.

(** ** Splitting a line on the space character *)

Lemma append_nil_r (s : string) : s +:+ "" = s.
Proof. induction s as [|c s IH]; [done|]. change (String c (s +:+ "") = String c s). now rewrite IH. Qed.

Lemma append_assoc (a b c : string) : (a +:+ b) +:+ c = a +:+ (b +:+ c).
Proof.
  induction a as [|x a IH]; [done|].
  change (String x ((a +:+ b) +:+ c) = String x (a +:+ (b +:+ c))). now rewrite IH.
Qed.

Lemma append_cons (x : ascii) (a b : string) : String x a +:+ b = String x (a +:+ b).
Proof. reflexivity. Qed.

Lemma isEmpty_append_cons (a : string) (x : ascii) (b : string) :
  isEmpty (a +:+ String x b) = false.
Proof. now destruct a. Qed.

Lemma noSpace_append (a b : string) :
  noSpace (a +:+ b) = noSpace a && noSpace b.
Proof.
  induction a as [|x a IH]; [done|].
  rewrite append_cons. simpl. rewrite IH. now rewrite andb_assoc.
Qed.

(** Characters other than the space are accumulated into the current part. *)
Lemma split_from_noSpace (t : string) : forall cur s,
  noSpace t = true -> split_from cur (t +:+ s) = split_from (cur +:+ t) s.
Proof.
  induction t as [|c t IH]; intros cur s Hns.
  - now rewrite append_nil_r.
  - simpl in Hns. apply andb_true_iff in Hns as [Hc Ht].
    rewrite append_cons. simpl.
    destruct (Ascii.eqb c " "); [discriminate|].
    rewrite IH by done. now rewrite append_assoc.
Qed.

(** A part followed by a space is the first element of the result. *)
Lemma split_token_space (t rest : string) :
  noSpace t = true -> isEmpty t = false ->
  split (t +:+ " " +:+ rest) = t :: split rest.
Proof.
  intros Hns Hne. unfold split. rewrite split_from_noSpace by done.
  change ("" +:+ t) with t. simpl. now rewrite Hne.
Qed.

(** A part that ends the line is the only element of the result. *)
Lemma split_token_end (t : string) :
  noSpace t = true -> isEmpty t = false -> split t = [t].
Proof.
  intros Hns Hne. unfold split. rewrite <- (append_nil_r t) at 1.
  rewrite split_from_noSpace by done. change ("" +:+ t) with t. simpl. now rewrite Hne.
Qed.

Lemma is_token_spec (s : string) :
  is_token s = true <-> isEmpty s = false /\ noSpace s = true /\ trimmed s = s.
Proof.
  unfold is_token. rewrite !andb_true_iff, negb_true_iff, String.eqb_eq. tauto.
Qed.

Lemma split_spy (s : string) :
  is_token s = true -> split ("spy " +:+ s) = ["spy"; s].
Proof.
  intros (Hne & Hns & _)%is_token_spec.
  change ("spy " +:+ s) with ("spy" +:+ " " +:+ s).
  rewrite split_token_space by done. now rewrite split_token_end.
Qed.

(** ** Command dispatch: empty lines and unknown sessions *)

Lemma processCommand_no_token (line : string) (sd : Z) (mc : SCDMsgCenter) :
  split line = [] -> processCommand line sd mc = Crash QList_index_out_of_range.
Proof. intros H. unfold processCommand. rewrite H. reflexivity. Qed.

(** C2 (the code fails it). The empty line and a line of spaces have no
    first token, and [list[0]] is read all the same; a line that is one tab
    has a first token that trims to the empty string, and [at(0)] is read
    from it. Each stops on the range assertion instead of being handled as a
    carriage return. *)
Theorem empty_line_out_of_range (mc : SCDMsgCenter) (sd : Z) :
  processCommand "" sd mc = Crash QList_index_out_of_range /\
  processCommand "   " sd mc = Crash QList_index_out_of_range /\
  processCommand tab sd mc = Crash QString_at_out_of_range.
Proof. repeat split; reflexivity. Qed.

(** C3 (the code fails it). For a connection with no record the lookup
    returns index -1, and the carriage-return branch and the successful
    "spy" branch pass that index to [clients.replace] unchecked: the call
    stops on the range assertion of [QList::replace]. *)
Theorem unknown_session_replace (mc : SCDMsgCenter) (sd : Z) (s : string) :
  ~ connected sd mc -> s ∈ senders mc -> is_token s = true ->
  index (getClient_from 0 (clients mc) sd) = -1 /\
  processCommand nl sd mc = Crash QList_replace_out_of_range /\
  processCommand crnl sd mc = Crash QList_replace_out_of_range /\
  processCommand ("spy " +:+ s) sd mc = Crash QList_replace_out_of_range.
Proof.
  intros Hnc Hin Htok.
  assert (Hget : getClient_from 0 (clients mc) sd = set_index blankClient (-1))
    by now apply getClient_from_not_found.
  split; [now rewrite Hget|].
  split; [|split].
  - unfold processCommand, bind, getClient, get_clients, ret. simpl.
    rewrite Hget. reflexivity.
  - unfold processCommand, bind, getClient, get_clients, ret. simpl.
    rewrite Hget. reflexivity.
  - unfold processCommand. rewrite split_spy by done.
    apply is_token_spec in Htok as (_ & _ & Htrim).
    unfold bind, getClient, get_clients, get_senders, ret. simpl.
    rewrite Hget, Htrim. unfold contains. rewrite bool_decide_eq_true_2 by done.
    reflexivity.
Qed.

Lemma unknown_session_replace_witness :
  index (getClient_from 0 (clients center_AB_42) 7) = -1 /\
  processCommand nl 7 center_AB_42 = Crash QList_replace_out_of_range /\
  processCommand crnl 7 center_AB_42 = Crash QList_replace_out_of_range /\
  processCommand ("spy " +:+ "A") 7 center_AB_42 = Crash QList_replace_out_of_range.
Proof.
  apply (unknown_session_replace center_AB_42 7 "A").
  - unfold connected. simpl. intros H. apply list_elem_of_singleton in H. discriminate H.
  - simpl. apply list_elem_of_here.
  - reflexivity.
Defined.

(** ** Command dispatch: "spy" *)

(** Replacing the first record of [sd] by another record of [sd] makes the
    lookup return the new one. *)
Lemma getClient_from_insert (cs : list Client) : forall n k c c' sd,
  cs !! k = Some c -> socketDescriptor c' = sd ->
  (forall j c1, (j < k)%nat -> cs !! j = Some c1 -> socketDescriptor c1 <> sd) ->
  getClient_from n (<[k := c']> cs) sd = set_index c' (n + Z.of_nat k).
Proof.
  induction cs as [|c0 cs IH]; intros n k c c' sd Hk Hsd Hfirst; [done|].
  destruct k as [|k]; simpl.
  - rewrite Hsd, Z.eqb_refl. f_equal. lia.
  - destruct (Z.eqb_spec (socketDescriptor c0) sd) as [Heq|Hne].
    + exfalso. apply (Hfirst 0%nat c0); [lia|done|done].
    + simpl in Hk. rewrite (IH (n + 1) k c c' sd Hk Hsd).
      * f_equal. lia.
      * intros j c1 Hj Hl. apply (Hfirst (S j) c1); [lia|done].
Qed.

Lemma getPrompt_connected (mc : SCDMsgCenter) (sd : Z) :
  connected sd mc ->
  getPrompt sd mc =
  Ok (nl +:+ name (getClient_from 0 (clients mc) sd) +:+ ":> ") mc [].
Proof.
  intros H. destruct (getClient_index_found mc sd H) as (Hidx & _).
  unfold getPrompt, bind, getClient, get_clients, ret. simpl.
  destruct (Z.gtb_spec (index (getClient_from 0 (clients mc) sd)) (-1)); [done|lia].
Qed.

Lemma getPrompt_unknown (mc : SCDMsgCenter) (sd : Z) :
  ~ connected sd mc -> getPrompt sd mc = Ok "" mc [].
Proof.
  intros H. unfold getPrompt, bind, getClient, get_clients, ret. simpl.
  now rewrite getClient_from_not_found.
Qed.

(** The record of a connection is what the lookup finds. *)
Lemma record_of_getClient (mc : SCDMsgCenter) (sd : Z) (k : nat) (c0 : Client) :
  record_of sd mc = Some (k, c0) ->
  clients mc !! k = Some c0 /\ socketDescriptor c0 = sd /\ connected sd mc /\
  getClient_from 0 (clients mc) sd = set_index c0 (Z.of_nat k) /\
  (forall j c1, (j < k)%nat -> clients mc !! j = Some c1 -> socketDescriptor c1 <> sd).
Proof.
  unfold record_of. intros (Hk & Hsd & Hleast)%list_find_Some.
  assert (Hc : connected sd mc).
  { unfold connected. rewrite <- Hsd. apply list_elem_of_fmap_2.
    now apply list_elem_of_lookup_2 in Hk. }
  destruct (getClient_from_found 0 (clients mc) sd ltac:(lia) Hc)
    as (k' & c' & Hk' & Hsd' & Hget & Hfirst).
  rewrite Z.add_0_l in Hget.
  assert (Heq : k' = k).
  { destruct (Nat.lt_trichotomy k' k) as [Hlt|[Heq|Hgt]]; [|done|].
    - exfalso. now apply (Hleast k' c' Hk' Hlt).
    - exfalso. now apply (Hfirst k c0 Hgt Hk). }
  subst k'. assert (c' = c0) as -> by congruence.
  repeat split; done.
Qed.

Lemma spying_record_eq (c0 : Client) (s : string) (k : nat) :
  set_mode (set_Sender (set_index c0 (Z.of_nat k)) s) 1 = spying_record c0 s k.
Proof. reflexivity. Qed.

(** C5. An existing session, whose record [c0] is the first one of its
    descriptor [sd] and stands at position [k], sends "spy s", with [s] one
    argument token. If [s] is registered, exactly the record at [k] is
    replaced, by the record of [sd] in mode 1 with [Sender = s] (name, user
    and admin flag kept), which is then the record of [sd]; every other
    record and the senders are as before and nothing is sent. If [s] is not
    registered, the object is left as it was and [sd] is sent exactly
    "\nSender not found: s" followed by its prompt "\n<name>:> ". *)
Theorem spy_command (mc : SCDMsgCenter) (sd : Z) (s : string) (k : nat) (c0 : Client) :
  record_of sd mc = Some (k, c0) -> is_token s = true ->
  let mc' := mkCenter (<[k := spying_record c0 s k]> (clients mc)) (senders mc) in
  (s ∈ senders mc ->
     processCommand ("spy " +:+ s) sd mc = Ok tt mc' [] /\
     record_of sd mc' = Some (k, spying_record c0 s k) /\
     socketDescriptor (spying_record c0 s k) = sd /\ Spying s (spying_record c0 s k))
  /\
  (s ∉ senders mc ->
     processCommand ("spy " +:+ s) sd mc =
       Ok tt mc [messageToClient_signal
                   (nl +:+ "Sender not found: " +:+ s +:+ nl +:+ name c0 +:+ ":> ") sd]).
Proof.
  intros (Hk & Hsd & Hc & Hget & Hfirst)%record_of_getClient Htok. cbv zeta.
  pose proof (split_spy s Htok) as Hsplit.
  apply is_token_spec in Htok as (_ & _ & Htrim).
  destruct (getClient_index_found mc sd Hc) as (_ & Hrange & _).
  split.
  - intros Hin. split; [|split; [|split]].
    + unfold processCommand. rewrite Hsplit.
      unfold bind, getClient, get_clients, get_senders, ret. simpl.
      rewrite Htrim. unfold contains. rewrite bool_decide_eq_true_2 by done.
      unfold clients_replace, bind, get_clients, put_clients. simpl.
      rewrite Hrange. rewrite Hget. simpl. now rewrite Nat2Z.id.
    + unfold record_of. simpl. apply list_find_Some. split; [|split].
      * apply list_lookup_insert_eq. now apply lookup_lt_Some in Hk.
      * exact Hsd.
      * intros j y Hj Hlt. rewrite list_lookup_insert_ne in Hj by lia.
        now apply (Hfirst j y Hlt Hj).
    + exact Hsd.
    + now split.
  - intros Hnin.
    unfold processCommand. rewrite Hsplit.
    unfold bind, getClient, get_clients, get_senders, ret. simpl.
    rewrite Htrim. unfold contains. rewrite bool_decide_eq_false_2 by done.
    rewrite getPrompt_connected by done. now rewrite Hget.
Qed.

Lemma not_in_Aa (x : string) : x <> "A" -> x <> "a" -> x ∉ ["A"; "a"].
Proof.
  intros HA Ha H.
  apply elem_of_cons in H as [H|H]; [done|].
  apply elem_of_cons in H as [H|H]; [done|].
  now apply elem_of_nil in H.
Qed.

Lemma spy_command_witness :
  processCommand "spy A" 2 center_Aa_12 =
    Ok tt (mkCenter [mkClient 1 "Host-1" "Anonymous" 0 0 "" (-1);
                     mkClient 2 "Host-2" "Anonymous" 0 1 "A" 1] ["A"; "a"]) [] /\
  processCommand "spy ghost" 2 center_Aa_12 =
    Ok tt center_Aa_12
       [messageToClient_signal
          (nl +:+ "Sender not found: ghost" +:+ nl +:+ "Host-2:> ") 2].
Proof.
  split.
  - exact (proj1 (proj1 (spy_command center_Aa_12 2 "A" 1
                           (mkClient 2 "Host-2" "Anonymous" 0 0 "" (-1))
                           eq_refl eq_refl)
                        (list_elem_of_here _ _))).
  - apply (proj2 (spy_command center_Aa_12 2 "ghost" 1
                    (mkClient 2 "Host-2" "Anonymous" 0 0 "" (-1)) eq_refl eq_refl)).
    apply not_in_Aa; discriminate.
Defined.

(** ** Command dispatch: the carriage return *)

(** The line "\n" of an existing session puts its record back in console
    mode and is answered by the help text and the prompt. *)
Lemma cr_command (mc : SCDMsgCenter) (sd : Z) :
  connected sd mc ->
  let client := getClient_from 0 (clients mc) sd in
  processCommand nl sd mc =
  Ok tt (mkCenter (<[Z.to_nat (index client) := set_mode client 0]> (clients mc))
                  (senders mc))
     [messageToClient_signal
        (nl +:+ getHelpString +:+ nl +:+ name client +:+ ":> ") sd].
Proof.
  intros Hc. cbv zeta.
  destruct (getClient_from_found 0 (clients mc) sd ltac:(lia) Hc)
    as (k & c & Hk & Hsd & Hget & Hfirst).
  rewrite Z.add_0_l in Hget.
  destruct (getClient_index_found mc sd Hc) as (_ & Hrange & _).
  unfold processCommand, bind, getClient, get_clients, ret. simpl.
  unfold clients_replace, bind, get_clients, put_clients. simpl.
  rewrite Hrange. simpl.
  unfold getPrompt, bind, getClient, get_clients, ret. simpl.
  rewrite Hget. simpl. rewrite Nat2Z.id.
  rewrite (getClient_from_insert (clients mc) 0 k c _ sd Hk); [|done|done].
  simpl. rewrite Z.add_0_l.
  destruct (Z.gtb_spec (Z.of_nat k) (-1)); [done|lia].
Qed.

(** ** Command dispatch: "list" *)

Lemma list_command (mc : SCDMsgCenter) (sd : Z) :
  connected sd mc ->
  processCommand "list" sd mc =
  Ok tt mc [messageToClient_signal
              (nl +:+ list_lines (senders mc) +:+ nl +:+
               name (getClient_from 0 (clients mc) sd) +:+ ":> ") sd].
Proof.
  intros Hc. unfold processCommand, bind, getClient, get_clients, get_senders, ret.
  simpl. rewrite getPrompt_connected by done. reflexivity.
Qed.

(** C6 as stated fails: the record that [registerClient] creates for
    connection 42 is named "Host-42", so the reply to "list" does not end in
    the prompt "\n42:> ". *)
Lemma list_reply_C6_counterexample :
  state_after (addSender "A" ;; addSender "B" ;; addClient 42) emptyCenter
    = Some center_AB_42 /\
  name (getClient_from 0 (clients center_AB_42) 42) <> number 42 /\
  sendCommand "list" 42 center_AB_42 <>
    Ok tt center_AB_42
       [messageToClient_signal
          (nl +:+ "   - A" +:+ nl +:+ "   - B" +:+ nl +:+ nl +:+ "42:> ") 42].
Proof. split; [reflexivity|]. split; vm_compute; discriminate. Qed.

(** C6, amended. With senders "A" then "B" registered and connection 42
    added, the default display name of the record is "Host-" followed by the
    decimal form of the id, and "list" is answered by exactly
    "\n   - A\n   - B\n\nHost-42:> ": the senders in registration order, then
    the prompt "\n<name>:> ". *)
Theorem list_reply_AB_42 :
  state_after (addSender "A" ;; addSender "B" ;; addClient 42) emptyCenter
    = Some center_AB_42 /\
  name (getClient_from 0 (clients center_AB_42) 42) = "Host-" +:+ number 42 /\
  sendCommand "list" 42 center_AB_42 =
    Ok tt center_AB_42
       [messageToClient_signal
          (nl +:+ "   - A" +:+ nl +:+ "   - B" +:+ nl +:+ nl +:+ "Host-42:> ") 42].
Proof. repeat split; reflexivity. Qed.

(** ** Command dispatch: the echo branch *)

Lemma unrecognized_spec (cmd : string) :
  unrecognized cmd = true ->
  String.eqb cmd crnl = false /\ String.eqb cmd nl = false /\
  String.eqb (trimmed cmd) "spy" = false /\ String.eqb (trimmed cmd) "exit" = false /\
  String.eqb (trimmed cmd) "list" = false /\ String.eqb (trimmed cmd) "ping" = false /\
  String.eqb (trimmed cmd) "help" = false /\
  exists c r, trimmed cmd = String c r /\ Ascii.eqb c "@" = false.
Proof.
  unfold unrecognized. rewrite !andb_true_iff, !negb_true_iff.
  intros [[[[[[[H1 H2] H3] H4] H5] H6] H7] H8].
  repeat split; try done.
  destruct (trimmed cmd) as [|c r]; [discriminate|].
  exists c, r. split; [done|]. now apply negb_true_iff.
Qed.

(** C7 as stated fails: the line is split on the space character only, so in
    "foo<TAB>bar baz" the first token of the code is "foo<TAB>bar" and that
    is what is echoed, while the first token delimited by white space is
    "foo". *)
Lemma echo_C7_counterexample :
  let line := "foo" +:+ tab +:+ "bar baz" in
  spec_verb line = "foo" /\ unrecognized (spec_verb line) = true /\
  processCommand line 42 center_AB_42 =
    Ok tt center_AB_42 [messageToClient_signal ("foo" +:+ tab +:+ "bar") 42] /\
  processCommand line 42 center_AB_42 <>
    Ok tt center_AB_42 [messageToClient_signal (spec_verb line) 42].
Proof. repeat split; try reflexivity. vm_compute. discriminate. Qed.

(** C7, amended. An existing session sends a line whose first part, split on
    the space character and put in lower case, is not a recognized verb (no
    line terminator; trimmed, it is none of spy, exit, list, ping, help, is
    not empty and does not start with '@'). The session is sent exactly that
    lower-cased part, untrimmed and with no prompt, and the object is left as
    it was: whatever follows the first space is dropped from the echo. *)
Theorem echo_of_verb (mc : SCDMsgCenter) (sd : Z) (line tok : string) (rest : list string) :
  connected sd mc -> split line = tok :: rest ->
  unrecognized (toLower tok) = true ->
  processCommand line sd mc = Ok tt mc [messageToClient_signal (toLower tok) sd].
Proof.
  intros Hc Hsplit Hun.
  destruct (unrecognized_spec _ Hun)
    as (H1 & H2 & H3 & H4 & H5 & H6 & H7 & c & r & Htrim & Hat).
  destruct (getClient_index_found mc sd Hc) as (Hidx & _).
  unfold processCommand. rewrite Hsplit.
  unfold bind, getClient, get_clients, get_senders, ret. simpl.
  rewrite H1, H2, H3, H4, H5, H6, H7. simpl.
  rewrite Htrim. simpl. rewrite Hat.
  destruct (Z.gtb_spec (index (getClient_from 0 (clients mc) sd)) (-1)); [done|lia].
Qed.

Lemma echo_of_verb_witness :
  processCommand "foo bar baz" 42 center_AB_42 =
    Ok tt center_AB_42 [messageToClient_signal "foo" 42] /\
  processCommand ("Foo" +:+ tab +:+ "bar baz") 42 center_AB_42 =
    Ok tt center_AB_42 [messageToClient_signal ("foo" +:+ tab +:+ "bar") 42].
Proof.
  assert (Hc : connected 42 center_AB_42) by apply list_elem_of_here.
  split.
  - exact (echo_of_verb center_AB_42 42 "foo bar baz" "foo" ["bar"; "baz"]
             Hc eq_refl eq_refl).
  - exact (echo_of_verb center_AB_42 42 ("Foo" +:+ tab +:+ "bar baz")
             ("Foo" +:+ tab +:+ "bar") ["baz"] Hc eq_refl eq_refl).
Defined.

(** ** Registration is idempotent *)

Lemma count_one {A B} `{EqDecision B} (f : A -> B) (l : list A) (b : B) :
  NoDup (f <$> l) -> b ∈ f <$> l ->
  length (filter (fun a => f a = b) l) = 1%nat.
Proof.
  induction l as [|a l IH]; intros Hnd Hin.
  - now apply elem_of_nil in Hin.
  - rewrite fmap_cons in Hnd, Hin. apply NoDup_cons in Hnd as [Hfa Hnd].
    rewrite filter_cons. destruct (decide (f a = b)) as [Heq|Hne].
    + subst b. simpl. f_equal.
      rewrite filter_none; [done|].
      apply Forall_forall. intros a' Ha' Heq. apply Hfa. rewrite <- Heq.
      now apply list_elem_of_fmap_2.
    + apply elem_of_cons in Hin as [Heq|Hin]; [congruence|]. now apply IH.
Qed.

Lemma registerMessageSender_known (mc : SCDMsgCenter) (x : string) :
  x ∈ senders mc -> registerMessageSender x mc = Ok tt mc [].
Proof.
  intros H. unfold registerMessageSender, bind, get_senders, contains. simpl.
  now rewrite bool_decide_eq_true_2.
Qed.

Lemma registerMessageSender_new (mc : SCDMsgCenter) (x : string) :
  x ∉ senders mc ->
  registerMessageSender x mc = Ok tt (mkCenter (clients mc) (senders mc ++ [x])) [].
Proof.
  intros H. unfold registerMessageSender, bind, get_senders, contains. simpl.
  now rewrite bool_decide_eq_false_2.
Qed.

Lemma registerClient_known (mc : SCDMsgCenter) (sd : Z) :
  connected sd mc -> registerClient sd mc = Ok tt mc [].
Proof.
  intros Hc. destruct (getClient_index_found mc sd Hc) as (Hidx & _).
  unfold registerClient, bind, getClient, get_clients, ret. simpl.
  destruct (Z.eqb_spec (index (getClient_from 0 (clients mc) sd)) (-1)); [lia|done].
Qed.

Lemma connected_app_new (mc : SCDMsgCenter) (sd : Z) (c : Client) :
  socketDescriptor c = sd ->
  connected sd (mkCenter (clients mc ++ [c]) (senders mc)).
Proof.
  intros H. unfold connected. simpl. rewrite fmap_app. apply elem_of_app. right.
  simpl. rewrite H. apply list_elem_of_here.
Qed.

Lemma getClient_from_app_new (cs : list Client) (c : Client) : forall n sd,
  sd ∉ socketDescriptor <$> cs -> socketDescriptor c = sd ->
  getClient_from n (cs ++ [c]) sd = set_index c (n + Z.of_nat (length cs)).
Proof.
  induction cs as [|c0 cs IH]; intros n sd Hnin Hsd; simpl.
  - rewrite Hsd, Z.eqb_refl. f_equal. lia.
  - rewrite fmap_cons, not_elem_of_cons in Hnin. destruct Hnin as [Hne Hnin].
    destruct (Z.eqb_spec (socketDescriptor c0) sd) as [Heq|_]; [congruence|].
    rewrite IH by done. f_equal. lia.
Qed.

Lemma registerClient_new (mc : SCDMsgCenter) (sd : Z) :
  ~ connected sd mc ->
  registerClient sd mc =
  Ok tt (mkCenter (clients mc ++ [defaultClient sd]) (senders mc))
     [messageToClient_signal (greeting sd) sd].
Proof.
  intros Hnc.
  assert (Hget : getClient_from 0 (clients mc) sd = set_index blankClient (-1))
    by now apply getClient_from_not_found.
  unfold registerClient, bind, getClient, get_clients, put_clients, ret. simpl.
  rewrite Hget. simpl.
  unfold getPrompt, bind, getClient, get_clients, ret. simpl.
  rewrite (getClient_from_app_new (clients mc) _ 0 sd) by done. simpl.
  rewrite Z.add_0_l.
  destruct (Z.gtb_spec (Z.of_nat (length (clients mc))) (-1)); [|lia].
  reflexivity.
Qed.

(** ** Command dispatch: "@sender" *)

Lemma trimLeft_id_or_shorter (s : string) :
  trimLeft s = s \/ (String.length (trimLeft s) < String.length s)%nat.
Proof.
  induction s as [|c s IH]; simpl; [now left|].
  destruct (isSpace c); [|now left].
  right. destruct IH as [->|IH]; lia.
Qed.

Lemma trimRight_length (s : string) :
  (String.length (trimRight s) <= String.length s)%nat.
Proof.
  induction s as [|c s IH]; simpl; [done|].
  destruct (isSpace c && isEmpty (trimRight s)); simpl; lia.
Qed.

Lemma trimmed_fix_trimRight (s : string) : trimmed s = s -> trimRight s = s.
Proof.
  unfold trimmed. intros H.
  destruct (trimLeft_id_or_shorter s) as [Heq|Hlt]; [now rewrite Heq in H|].
  pose proof (trimRight_length (trimLeft s)) as Hle.
  rewrite H in Hle. lia.
Qed.

Lemma split_at_rest (s rest : string) :
  is_token s = true ->
  split ("@" +:+ s +:+ " " +:+ rest) = ("@" +:+ s) :: split rest.
Proof.
  intros (_ & Hns & _)%is_token_spec.
  rewrite <- append_assoc. now apply split_token_space.
Qed.

Lemma split_at_alone (s : string) :
  is_token s = true -> split ("@" +:+ s) = ["@" +:+ s].
Proof. intros (_ & Hns & _)%is_token_spec. now apply split_token_end. Qed.

(** What the '@' branch does once the line is split into "@s" and the
    remaining parts [args], for a sender [s] that lower-casing leaves
    alone. *)
Lemma at_dispatch (mc : SCDMsgCenter) (sd : Z) (line s : string) (args : list string) :
  connected sd mc -> split line = ("@" +:+ s) :: args ->
  toLower s = s -> trimmed s = s -> s ∈ senders mc ->
  let client := getClient_from 0 (clients mc) sd in
  let client' := set_mode (set_Sender client s) 1 in
  processCommand line sd mc =
  Ok tt (mkCenter (<[Z.to_nat (index client) := client']> (clients mc)) (senders mc))
     [commandToSender_signal (trimmed (join args)) s].
Proof.
  intros Hc Hsplit Hlow Htrim Hin. cbv zeta.
  apply trimmed_fix_trimRight in Htrim.
  destruct (getClient_index_found mc sd Hc) as (_ & Hrange & _).
  unfold processCommand. rewrite Hsplit.
  change ("@" +:+ s) with (String "@" s).
  unfold bind, getClient, get_clients, get_senders, ret. simpl.
  rewrite Hlow. simpl. rewrite Htrim. simpl.
  unfold contains. rewrite bool_decide_eq_true_2 by done.
  unfold clients_replace, bind, get_clients, put_clients, emit. simpl.
  now rewrite Hrange.
Qed.

(** For a registered sender written in lower case the '@' command works as
    the help text says. The session's record [c0], the first one of its
    descriptor [sd], at position [k], is the one record that is replaced, by
    the record of [sd] in mode 1 with [Sender = s]; the sender is handed the
    rest of the line, its parts joined by single spaces. *)
Lemma at_command_lower_case (mc : SCDMsgCenter) (sd : Z) (s rest : string)
      (k : nat) (c0 : Client) :
  record_of sd mc = Some (k, c0) ->
  is_token s = true -> toLower s = s -> s ∈ senders mc ->
  let mc' := mkCenter (<[k := spying_record c0 s k]> (clients mc)) (senders mc) in
  processCommand ("@" +:+ s +:+ " " +:+ rest) sd mc =
    Ok tt mc' [commandToSender_signal (trimmed (join (split rest))) s] /\
  record_of sd mc' = Some (k, spying_record c0 s k) /\
  socketDescriptor (spying_record c0 s k) = sd /\ Spying s (spying_record c0 s k).
Proof.
  intros (Hk & Hsd & Hc & Hget & Hfirst)%record_of_getClient Htok Hlow Hin.
  cbv zeta. split; [|split; [|split]].
  - rewrite (at_dispatch mc sd ("@" +:+ s +:+ " " +:+ rest) s (split rest));
      try done.
    + rewrite Hget. simpl. now rewrite Nat2Z.id.
    + now apply split_at_rest.
    + now apply is_token_spec in Htok.
  - unfold record_of. simpl. apply list_find_Some. split; [|split].
    + apply list_lookup_insert_eq. now apply lookup_lt_Some in Hk.
    + exact Hsd.
    + intros j y Hj Hlt. rewrite list_lookup_insert_ne in Hj by lia.
      now apply (Hfirst j y Hlt Hj).
  - exact Hsd.
  - now split.
Qed.

(** The same with nothing after the sender: the command text is empty. *)
Lemma at_command_alone_lower_case (mc : SCDMsgCenter) (sd : Z) (s : string) :
  connected sd mc -> is_token s = true -> toLower s = s -> s ∈ senders mc ->
  let client := getClient_from 0 (clients mc) sd in
  let client' := set_mode (set_Sender client s) 1 in
  processCommand ("@" +:+ s) sd mc =
  Ok tt (mkCenter (<[Z.to_nat (index client) := client']> (clients mc)) (senders mc))
     [commandToSender_signal "" s].
Proof.
  intros Hc Htok Hlow Hin.
  apply (at_dispatch mc sd ("@" +:+ s) s []); try done.
  - now apply split_at_alone.
  - now apply is_token_spec in Htok.
Qed.

(** From a connection with no record the successful '@' branch stops in
    [clients.replace], like the carriage return and "spy". *)
Lemma at_command_unknown_session (mc : SCDMsgCenter) (sd : Z) (s : string) :
  ~ connected sd mc -> is_token s = true -> toLower s = s -> s ∈ senders mc ->
  processCommand ("@" +:+ s) sd mc = Crash QList_replace_out_of_range.
Proof.
  intros Hnc Htok Hlow Hin.
  pose proof (split_at_alone s Htok) as Hsplit.
  apply is_token_spec in Htok as (_ & _ & Htrim%trimmed_fix_trimRight).
  unfold processCommand. rewrite Hsplit.
  change ("@" +:+ s) with (String "@" s).
  unfold bind, getClient, get_clients, get_senders, ret. simpl.
  rewrite Hlow. simpl. rewrite Htrim. simpl.
  unfold contains. rewrite bool_decide_eq_true_2 by done.
  rewrite getClient_from_not_found by done. reflexivity.
Qed.

(** C4 (the code fails it). The sender id of an '@' command is cut out of
    the first part after that part was put in lower case, so a sender
    registered as "A" is looked up as "a": with "a" not registered, the
    session that sends "@A hello" is told "Sender not found: a", its record
    is not touched and no command is handed to the sender. *)
Theorem at_command_upper_case (mc : SCDMsgCenter) (sd : Z) :
  connected sd mc -> "A" ∈ senders mc -> "a" ∉ senders mc ->
  processCommand "@A hello" sd mc =
  Ok tt mc [messageToClient_signal
              (nl +:+ "Sender not found: a" +:+ nl +:+
               name (getClient_from 0 (clients mc) sd) +:+ ":> ") sd].
Proof.
  intros Hc _ Hnin.
  unfold processCommand, bind, getClient, get_clients, get_senders, ret. simpl.
  unfold contains. rewrite bool_decide_eq_false_2 by done.
  rewrite getPrompt_connected by done. reflexivity.
Qed.

Lemma not_in_AB (x : string) : x <> "A" -> x <> "B" -> x ∉ ["A"; "B"].
Proof.
  intros HA HB H.
  apply elem_of_cons in H as [H|H]; [done|].
  apply elem_of_cons in H as [H|H]; [done|].
  now apply elem_of_nil in H.
Qed.

Lemma at_command_upper_case_witness :
  processCommand "@A hello" 42 center_AB_42 =
  Ok tt center_AB_42
     [messageToClient_signal
        (nl +:+ "Sender not found: a" +:+ nl +:+ "Host-42:> ") 42].
Proof.
  apply (at_command_upper_case center_AB_42 42).
  - apply list_elem_of_here.
  - apply list_elem_of_here.
  - apply not_in_AB; discriminate.
Defined.

(** C10 (the code fails it, by the lower-casing of C4). With nothing after
    the sender id the '@' branch is taken as well, but the sender registered
    as "A" is again looked up as "a": the session that sends "@A" is told
    "Sender not found: a" and no command event is emitted. *)
Theorem at_command_alone_upper_case (mc : SCDMsgCenter) (sd : Z) :
  connected sd mc -> "A" ∈ senders mc -> "a" ∉ senders mc ->
  processCommand "@A" sd mc =
  Ok tt mc [messageToClient_signal
              (nl +:+ "Sender not found: a" +:+ nl +:+
               name (getClient_from 0 (clients mc) sd) +:+ ":> ") sd].
Proof.
  intros Hc _ Hnin.
  unfold processCommand, bind, getClient, get_clients, get_senders, ret. simpl.
  unfold contains. rewrite bool_decide_eq_false_2 by done.
  rewrite getPrompt_connected by done. reflexivity.
Qed.

Lemma at_command_alone_upper_case_witness :
  processCommand "@A" 42 center_AB_42 =
  Ok tt center_AB_42
     [messageToClient_signal
        (nl +:+ "Sender not found: a" +:+ nl +:+ "Host-42:> ") 42].
Proof.
  apply (at_command_alone_upper_case center_AB_42 42).
  - apply list_elem_of_here.
  - apply list_elem_of_here.
  - apply not_in_AB; discriminate.
Defined.

(** ** The registries never hold a duplicate *)

Lemma removeOne_subset (x y : string) (l : list string) :
  y ∈ removeOne x l -> y ∈ l.
Proof.
  induction l as [|z l IH]; simpl; [done|].
  destruct (String.eqb z x).
  - intros H. now apply list_elem_of_further.
  - intros [->|H]%elem_of_cons; [apply list_elem_of_here|].
    apply list_elem_of_further. now apply IH.
Qed.

Lemma removeOne_NoDup (x : string) (l : list string) :
  NoDup l -> NoDup (removeOne x l).
Proof.
  induction 1 as [|z l Hz Hnd IH]; simpl; [apply NoDup_nil_2|].
  destruct (String.eqb z x); [done|].
  apply NoDup_cons. split; [|done].
  intros H. apply Hz. now apply removeOne_subset in H.
Qed.

(** [clients.replace] at the position found by [getClient], with a record
    that keeps the descriptor, keeps the list of descriptors. *)
Lemma replace_found_descriptors (mc mc' : SCDMsgCenter) (sd : Z) (c' : Client)
      (out : list Signal) :
  let client := getClient_from 0 (clients mc) sd in
  socketDescriptor c' = socketDescriptor client ->
  clients_replace (index client) c' mc = Ok tt mc' out ->
  socketDescriptor <$> clients mc' = socketDescriptor <$> clients mc /\
  senders mc' = senders mc.
Proof.
  cbv zeta. intros Hsd Hrun.
  destruct (decide (connected sd mc)) as [Hc|Hnc].
  - destruct (getClient_index_found mc sd Hc) as (_ & Hrange & Hsd' & c0 & Hc0 & Heq).
    unfold clients_replace, bind, get_clients, put_clients in Hrun. simpl in Hrun.
    rewrite Hrange in Hrun. injection Hrun as <- _. simpl. split; [|done].
    rewrite list_fmap_insert. apply list_insert_id.
    rewrite list_lookup_fmap, Hc0. simpl. f_equal.
    rewrite Hsd, Heq. reflexivity.
  - unfold clients_replace, bind, get_clients, put_clients in Hrun. simpl in Hrun.
    rewrite getClient_index_sentinel in Hrun by done. discriminate Hrun.
Qed.

Lemma QStringList_index_run (l : list string) (i : Z) (mc : SCDMsgCenter) :
  (exists s, QStringList_index l i mc = Ok s mc []) \/
  (exists e, QStringList_index l i mc = Crash e).
Proof.
  unfold QStringList_index. destruct (in_range i l); [|right; now eexists].
  destruct (l !! Z.to_nat i); [left|right]; now eexists.
Qed.

Lemma QString_at_run (s : string) (i : Z) (mc : SCDMsgCenter) :
  (exists c, QString_at s i mc = Ok c mc []) \/
  (exists e, QString_at s i mc = Crash e).
Proof.
  unfold QString_at.
  destruct ((0 <=? i) && (i <? Z.of_nat (String.length s))); [|right; now eexists].
  destruct (String.get (Z.to_nat i) s); [left|right]; now eexists.
Qed.

Lemma getPrompt_run (sd : Z) (mc : SCDMsgCenter) :
  exists p, getPrompt sd mc = Ok p mc [].
Proof.
  unfold getPrompt, bind, getClient, get_clients, ret. simpl.
  destruct (index (getClient_from 0 (clients mc) sd) >? -1); now eexists.
Qed.

Ltac run_reads H :=
  repeat match type of H with
    | context [QStringList_index ?l ?i ?m] =>
        let Hq := fresh in
        destruct (QStringList_index_run l i m) as [[? Hq]|[? Hq]];
        rewrite Hq in H; clear Hq; simpl in H; try discriminate H
    | context [QString_at ?s ?i ?m] =>
        let Hq := fresh in
        destruct (QString_at_run s i m) as [[? Hq]|[? Hq]];
        rewrite Hq in H; clear Hq; simpl in H; try discriminate H
    | context [getPrompt ?sd ?m] =>
        let Hq := fresh in
        destruct (getPrompt_run sd m) as [? Hq];
        rewrite Hq in H; clear Hq; simpl in H
    | context [if ?b then _ else _] =>
        destruct b; simpl in H; try discriminate H
    end.

(** A command changes neither the list of descriptors nor the senders. *)
Lemma processCommand_registries (line : string) (sd : Z) (mc mc' : SCDMsgCenter)
      (out : list Signal) :
  processCommand line sd mc = Ok tt mc' out ->
  socketDescriptor <$> clients mc' = socketDescriptor <$> clients mc /\
  senders mc' = senders mc.
Proof.
  intros Hrun. unfold processCommand in Hrun.
  unfold bind, getClient, get_clients, get_senders, ret, sendMessageToClient, emit
    in Hrun.
  simpl in Hrun. run_reads Hrun;
    try (injection Hrun as <- _; split; reflexivity);
    match type of Hrun with
    | context [clients_replace ?i ?c ?m] =>
        destruct (clients_replace i c m) as [[] m1 o1|] eqn:Hrep;
        [|discriminate Hrun];
        simpl in Hrun; run_reads Hrun; injection Hrun as <- _;
        exact (replace_found_descriptors m m1 sd c o1 eq_refl Hrep)
    end.
Qed.

Lemma registerMessageSender_wf (x : string) (mc mc' : SCDMsgCenter) (out : list Signal) :
  registries_wf mc -> registerMessageSender x mc = Ok tt mc' out -> registries_wf mc'.
Proof.
  intros [Hss Hcs] Hrun. destruct (decide (x ∈ senders mc)) as [Hin|Hnin].
  - rewrite registerMessageSender_known in Hrun by done. now injection Hrun as <- _.
  - rewrite registerMessageSender_new in Hrun by done. injection Hrun as <- _.
    split; [|done]. simpl. apply NoDup_app. repeat split; [done| |apply NoDup_singleton].
    intros y Hy Hy'. apply list_elem_of_singleton in Hy'. now subst y.
Qed.

Lemma registerClient_wf (sd : Z) (mc mc' : SCDMsgCenter) (out : list Signal) :
  registries_wf mc -> registerClient sd mc = Ok tt mc' out -> registries_wf mc'.
Proof.
  intros [Hss Hcs] Hrun. destruct (decide (connected sd mc)) as [Hc|Hnc].
  - rewrite registerClient_known in Hrun by done. now injection Hrun as <- _.
  - rewrite registerClient_new in Hrun by done. injection Hrun as <- _.
    split; [done|]. simpl. rewrite fmap_app. apply NoDup_app.
    repeat split; [done| |apply NoDup_singleton].
    intros y Hy Hy'. simpl in Hy'. apply list_elem_of_singleton in Hy'. now subst y.
Qed.

Lemma unregisterClient_wf (sd : Z) (mc mc' : SCDMsgCenter) (out : list Signal) :
  registries_wf mc -> unregisterClient sd mc = Ok tt mc' out -> registries_wf mc'.
Proof.
  intros [Hss Hcs] Hrun.
  unfold unregisterClient, clients_removeAt, bind, getClient, get_clients,
    put_clients, ret in Hrun.
  simpl in Hrun.
  destruct (index (getClient_from 0 (clients mc) sd) >? -1); simpl in Hrun;
    [|now injection Hrun as <- _].
  destruct (in_range _ _); simpl in Hrun; injection Hrun as <- _; [|done].
  split; [done|]. simpl. rewrite list_fmap_delete.
  eapply sublist_NoDup; [exact Hcs|apply sublist_delete].
Qed.

Lemma unregisterMessageSender_wf (x : string) (mc mc' : SCDMsgCenter) (out : list Signal) :
  registries_wf mc -> unregisterMessageSender x mc = Ok tt mc' out -> registries_wf mc'.
Proof.
  intros [Hss Hcs] Hrun.
  unfold unregisterMessageSender, bind, get_senders, put_senders in Hrun.
  simpl in Hrun. injection Hrun as <- _. split; [|done].
  now apply removeOne_NoDup.
Qed.

(** Every call keeps both registries free of duplicates. *)
Lemma call_wf (c : Call) (mc mc' : SCDMsgCenter) (out : list Signal) :
  registries_wf mc -> call c mc = Ok tt mc' out -> registries_wf mc'.
Proof.
  intros Hwf Hrun. destruct c as [sd|sd|s|s|cmd sd|msg s p]; simpl in Hrun.
  - now apply (registerClient_wf sd mc mc' out).
  - now apply (unregisterClient_wf sd mc mc' out).
  - now apply (registerMessageSender_wf s mc mc' out).
  - now apply (unregisterMessageSender_wf s mc mc' out).
  - apply processCommand_registries in Hrun as [Hd Hs].
    destruct Hwf as [Hss Hcs]. split; [now rewrite Hs|now rewrite Hd].
  - unfold postMessage, processMessage, get_clients, bind in Hrun.
    rewrite processMessage_loop_fanout in Hrun. now injection Hrun as <- _.
Qed.

(** The invariant of the data model: in every state the calls can lead to,
    no sender is registered twice and no connection has two records. *)
Lemma reachable_wf (mc : SCDMsgCenter) : reachable mc -> registries_wf mc.
Proof.
  induction 1 as [|mc mc' c out _ IH Hrun].
  - split; apply NoDup_nil_2.
  - now apply (call_wf c mc mc' out).
Qed.

(** C9. In every state the calls can lead to, registering the sender [x]
    twice gives the state of registering it once: the second call changes
    nothing, [x] occurs exactly once, and the list is the old one with [x]
    appended when it was absent. Adding the connection [sd] twice
    likewise: the second call changes nothing and emits nothing, exactly one
    record has descriptor [sd], and when [sd] was new that record is the
    default one appended by the first call. *)
Theorem register_twice (mc : SCDMsgCenter) (x : string) (sd : Z) :
  reachable mc ->
  (exists mc1,
     registerMessageSender x mc = Ok tt mc1 [] /\
     registerMessageSender x mc1 = Ok tt mc1 [] /\
     length (filter (fun y => y = x) (senders mc1)) = 1%nat /\
     senders mc1 = (if decide (x ∈ senders mc) then senders mc else senders mc ++ [x]) /\
     clients mc1 = clients mc /\ registries_wf mc1)
  /\
  (exists mc1 out,
     registerClient sd mc = Ok tt mc1 out /\
     registerClient sd mc1 = Ok tt mc1 [] /\
     length (filter (fun c => socketDescriptor c = sd) (clients mc1)) = 1%nat /\
     clients mc1 = (if decide (connected sd mc) then clients mc
                    else clients mc ++ [defaultClient sd]) /\
     senders mc1 = senders mc /\ registries_wf mc1).
Proof.
  intros [Hss Hcs]%reachable_wf. split.
  - destruct (decide (x ∈ senders mc)) as [Hin|Hnin].
    + exists mc. rewrite registerMessageSender_known by done.
      repeat split; try done.
      apply (count_one id); now rewrite list_fmap_id.
    + set (mc1 := mkCenter (clients mc) (senders mc ++ [x])).
      assert (Hin1 : x ∈ senders mc1).
      { simpl. apply elem_of_app. right. apply list_elem_of_here. }
      assert (Hnd1 : NoDup (senders mc1)).
      { simpl. apply NoDup_app. repeat split; [done| |apply NoDup_singleton].
        intros y Hy Hy'. apply list_elem_of_singleton in Hy'. now subst y. }
      exists mc1. rewrite registerMessageSender_new by done.
      rewrite registerMessageSender_known by done.
      repeat split; try done.
      apply (count_one id); now rewrite list_fmap_id.
  - destruct (decide (connected sd mc)) as [Hc|Hnc].
    + exists mc, []. rewrite registerClient_known by done.
      repeat split; try done. now apply count_one.
    + set (mc1 := mkCenter (clients mc ++ [defaultClient sd]) (senders mc)).
      assert (Hc1 : connected sd mc1) by now apply connected_app_new.
      assert (Hnd1 : NoDup (socketDescriptor <$> clients mc1)).
      { simpl. rewrite fmap_app. apply NoDup_app.
        repeat split; [done| |apply NoDup_singleton].
        intros y Hy Hy'. simpl in Hy'. apply list_elem_of_singleton in Hy'. now subst y. }
      exists mc1, [messageToClient_signal (greeting sd) sd].
      rewrite registerClient_new by done. rewrite registerClient_known by done.
      repeat split; try done. now apply count_one.
Qed.

Lemma register_twice_witness :
  (exists mc1,
     registerMessageSender "A" emptyCenter = Ok tt mc1 [] /\
     registerMessageSender "A" mc1 = Ok tt mc1 [] /\
     length (filter (fun y => y = "A") (senders mc1)) = 1%nat) /\
  (exists mc1 out,
     registerClient 42 emptyCenter = Ok tt mc1 out /\
     registerClient 42 mc1 = Ok tt mc1 [] /\
     length (filter (fun c => socketDescriptor c = 42) (clients mc1)) = 1%nat).
Proof.
  destruct (register_twice emptyCenter "A" 42)
    as [(m1 & H1 & H2 & H3 & _) (m2 & o & K1 & K2 & K3 & _)].
  { apply reachable_empty. }
  split; [exists m1|exists m2, o]; repeat split; assumption.
Defined.

(** * Further properties of the member functions *)

(** ** The lookup *)

(** [getClient] returns index -1 exactly when no record has the descriptor;
    otherwise the index is the position of the first such record, and the
    result is that record with [index] set. *)
Theorem getClient_lookup (mc : SCDMsgCenter) (sd : Z) :
  let c := getClient_from 0 (clients mc) sd in
  getClient sd mc = Ok c mc [] /\
  (index c = -1 <-> ~ connected sd mc) /\
  (connected sd mc ->
   exists k c0,
     index c = Z.of_nat k /\ clients mc !! k = Some c0 /\
     socketDescriptor c0 = sd /\ c = set_index c0 (Z.of_nat k) /\
     forall j c1, (j < k)%nat -> clients mc !! j = Some c1 -> socketDescriptor c1 <> sd).
Proof.
  cbv zeta. split; [reflexivity|]. split.
  - split.
    + intros Hidx Hc. destruct (getClient_index_found mc sd Hc) as (H0 & _). lia.
    + apply getClient_index_sentinel.
  - intros Hc.
    destruct (getClient_from_found 0 (clients mc) sd ltac:(lia) Hc)
      as (k & c & Hk & Hsd & Hget & Hfirst).
    rewrite Z.add_0_l in Hget. exists k, c. rewrite Hget. now repeat split.
Qed.

(** ** Invariants of the reachable states *)

Lemma record_ok_found (mc : SCDMsgCenter) (sd : Z) :
  connected sd mc -> Forall record_ok (clients mc) ->
  record_ok (getClient_from 0 (clients mc) sd).
Proof.
  intros Hc Hall.
  destruct (getClient_index_found mc sd Hc) as (_ & _ & _ & c0 & Hc0 & Heq).
  rewrite Heq. rewrite Forall_lookup in Hall. exact (Hall _ _ Hc0).
Qed.

Lemma replace_found_records (mc mc' : SCDMsgCenter) (sd : Z) (c' : Client)
      (out : list Signal) :
  let client := getClient_from 0 (clients mc) sd in
  Forall record_ok (clients mc) ->
  (record_ok client -> record_ok c') ->
  clients_replace (index client) c' mc = Ok tt mc' out ->
  Forall record_ok (clients mc').
Proof.
  cbv zeta. intros Hall Hok Hrun.
  unfold clients_replace, bind, get_clients, put_clients in Hrun. simpl in Hrun.
  destruct (decide (connected sd mc)) as [Hc|Hnc].
  - destruct (in_range _ _); [|discriminate Hrun].
    injection Hrun as <- _. simpl.
    apply Forall_insert; [done|]. apply Hok. now apply record_ok_found.
  - rewrite getClient_index_sentinel in Hrun by done. discriminate Hrun.
Qed.

Lemma processCommand_records (line : string) (sd : Z) (mc mc' : SCDMsgCenter)
      (out : list Signal) :
  Forall record_ok (clients mc) ->
  processCommand line sd mc = Ok tt mc' out ->
  Forall record_ok (clients mc').
Proof.
  intros Hall Hrun. unfold processCommand in Hrun.
  unfold bind, getClient, get_clients, get_senders, ret, sendMessageToClient, emit
    in Hrun.
  simpl in Hrun. run_reads Hrun;
    try (injection Hrun as <- _; exact Hall);
    match type of Hrun with
    | context [clients_replace ?i ?c ?m] =>
        destruct (clients_replace i c m) as [[] m1 o1|] eqn:Hrep;
        [|discriminate Hrun];
        simpl in Hrun; run_reads Hrun; injection Hrun as <- _;
        apply (replace_found_records m m1 sd c o1 Hall); [|exact Hrep];
        unfold record_ok; simpl; tauto
    end.
Qed.

Lemma unregisterClient_unknown (mc : SCDMsgCenter) (sd : Z) :
  ~ connected sd mc -> unregisterClient sd mc = Ok tt mc [].
Proof.
  intros Hnc. unfold unregisterClient, bind, getClient, get_clients, ret. simpl.
  now rewrite getClient_from_not_found.
Qed.

Lemma unregisterClient_known (mc : SCDMsgCenter) (sd : Z) :
  connected sd mc ->
  unregisterClient sd mc =
  Ok tt (mkCenter (delete (Z.to_nat (index (getClient_from 0 (clients mc) sd)))
                          (clients mc))
                  (senders mc)) [].
Proof.
  intros Hc. destruct (getClient_index_found mc sd Hc) as (Hidx & Hrange & _).
  unfold unregisterClient, clients_removeAt, bind, getClient, get_clients,
    put_clients, ret.
  simpl.
  destruct (Z.gtb_spec (index (getClient_from 0 (clients mc) sd)) (-1)); [|lia].
  simpl. now rewrite Hrange.
Qed.

Lemma call_records (c : Call) (mc mc' : SCDMsgCenter) (out : list Signal) :
  Forall record_ok (clients mc) -> call c mc = Ok tt mc' out ->
  Forall record_ok (clients mc').
Proof.
  intros Hall Hrun. destruct c as [sd|sd|s|s|cmd sd|msg s p]; simpl in Hrun.
  - destruct (decide (connected sd mc)) as [Hc|Hnc].
    + rewrite registerClient_known in Hrun by done. now injection Hrun as <- _.
    + rewrite registerClient_new in Hrun by done. injection Hrun as <- _. simpl.
      apply Forall_app. split; [done|]. apply Forall_singleton.
      unfold record_ok. simpl. tauto.
  - destruct (decide (connected sd mc)) as [Hc|Hnc].
    + rewrite unregisterClient_known in Hrun by done. injection Hrun as <- _.
      simpl. now apply Forall_delete.
    + rewrite unregisterClient_unknown in Hrun by done. now injection Hrun as <- _.
  - destruct (decide (s ∈ senders mc)) as [Hin|Hnin].
    + rewrite registerMessageSender_known in Hrun by done. now injection Hrun as <- _.
    + rewrite registerMessageSender_new in Hrun by done. now injection Hrun as <- _.
  - unfold unregisterMessageSender, bind, get_senders, put_senders in Hrun.
    simpl in Hrun. now injection Hrun as <- _.
  - now apply (processCommand_records cmd sd mc mc' out).
  - unfold postMessage, processMessage, get_clients, bind in Hrun.
    rewrite processMessage_loop_fanout in Hrun. now injection Hrun as <- _.
Qed.

Lemma reachable_records (mc : SCDMsgCenter) :
  reachable mc -> Forall record_ok (clients mc).
Proof.
  induction 1 as [|mc mc' c out _ IH Hrun]; [apply Forall_nil_2|].
  now apply (call_records c mc mc' out).
Qed.

(** In every state the calls can lead to: no sender is registered twice, no
    connection has two records, every record still has the name
    "Host-<descriptor>", the user "Anonymous" and the admin flag 0 it was
    created with, and its mode is 0 or 1. *)
Theorem reachable_invariant (mc : SCDMsgCenter) :
  reachable mc ->
  NoDup (senders mc) /\ NoDup (socketDescriptor <$> clients mc) /\
  Forall record_ok (clients mc).
Proof.
  intros Hr. split; [|split]; try apply (reachable_wf mc Hr).
  now apply reachable_records.
Qed.

Lemma run_calls_reachable (cs : list Call) : forall mc mc',
  reachable mc -> run_calls cs mc = Some mc' -> reachable mc'.
Proof.
  induction cs as [|c cs IH]; intros mc mc' Hr Hrun; simpl in Hrun.
  - now injection Hrun as <-.
  - destruct (call c mc) as [[] m1 o1|] eqn:Hc; [|discriminate Hrun].
    apply (IH m1 mc'); [|done]. now apply (reachable_call mc m1 c o1).
Qed.

Lemma reachable_center_AB_42 : reachable center_AB_42.
Proof.
  apply (run_calls_reachable
           [CallAddSender "A"; CallAddSender "B"; CallAddClient 42] emptyCenter).
  - apply reachable_empty.
  - reflexivity.
Qed.

Lemma reachable_center_three_spies : reachable center_three_spies.
Proof.
  apply (run_calls_reachable
           [CallAddSender "A"; CallAddClient 1; CallAddClient 2; CallAddClient 3;
            CallSendCommand "spy A" 1; CallSendCommand "spy A" 2;
            CallSendCommand "spy A" 3] emptyCenter).
  - apply reachable_empty.
  - reflexivity.
Qed.

Lemma connected_42 : connected 42 center_AB_42.
Proof. apply list_elem_of_here. Qed.

Lemma not_connected_7 : ~ connected 7 center_AB_42.
Proof.
  unfold connected. simpl. intros H. apply list_elem_of_singleton in H. discriminate H.
Qed.

(** In a reachable state the prompt of a connection is "\nHost-<sd>:> " when
    it has a record and the empty string when it has none. *)
Theorem getPrompt_reachable (mc : SCDMsgCenter) (sd : Z) :
  reachable mc ->
  getPrompt sd mc =
  Ok (if decide (connected sd mc)
      then nl +:+ ("Host-" +:+ number sd) +:+ ":> " else "") mc [].
Proof.
  intros Hall%reachable_records.
  destruct (decide (connected sd mc)) as [Hc|Hnc].
  - rewrite getPrompt_connected by done.
    destruct (record_ok_found mc sd Hc Hall) as (Hname & _).
    destruct (getClient_index_found mc sd Hc) as (_ & _ & Hsd & _).
    now rewrite Hname, Hsd.
  - now apply getPrompt_unknown.
Qed.

Lemma getPrompt_reachable_witness :
  getPrompt 42 center_AB_42 = Ok (nl +:+ "Host-42:> ") center_AB_42 [] /\
  getPrompt 7 center_AB_42 = Ok "" center_AB_42 [].
Proof.
  split.
  - exact (getPrompt_reachable center_AB_42 42 reachable_center_AB_42).
  - exact (getPrompt_reachable center_AB_42 7 reachable_center_AB_42).
Defined.

Lemma reachable_invariant_witness :
  NoDup (senders center_three_spies) /\
  NoDup (socketDescriptor <$> clients center_three_spies) /\
  Forall record_ok (clients center_three_spies).
Proof. exact (reachable_invariant center_three_spies reachable_center_three_spies). Defined.

(** ** What a command can and cannot do *)

Lemma clients_replace_Ok (i : Z) (c : Client) (mc mc' : SCDMsgCenter) (u : unit)
      (out : list Signal) :
  clients_replace i c mc = Ok u mc' out ->
  in_range i (clients mc) = true /\ out = [] /\
  mc' = mkCenter (<[Z.to_nat i := c]> (clients mc)) (senders mc).
Proof.
  unfold clients_replace, bind, get_clients, put_clients. simpl.
  destruct (in_range i (clients mc)); [|discriminate].
  intros H. injection H as <- <-. now repeat split.
Qed.

(** A command neither adds nor removes a session or a sender: the list of
    descriptors, its length and the sender list are the same afterwards. *)
Theorem sendCommand_keeps_registries (cmd : string) (sd : Z) (mc mc' : SCDMsgCenter)
        (out : list Signal) :
  sendCommand cmd sd mc = Ok tt mc' out ->
  socketDescriptor <$> clients mc' = socketDescriptor <$> clients mc /\
  length (clients mc') = length (clients mc) /\
  senders mc' = senders mc.
Proof.
  intros Hrun. apply processCommand_registries in Hrun as [Hd Hs].
  repeat split; try done.
  apply (f_equal length) in Hd. now rewrite !length_fmap in Hd.
Qed.

Lemma sendCommand_keeps_registries_witness :
  socketDescriptor <$> [mkClient 42 "Host-42" "Anonymous" 0 1 "A" 0] = [42] /\
  length [mkClient 42 "Host-42" "Anonymous" 0 1 "A" 0] = 1%nat /\
  ["A"; "B"] = ["A"; "B"].
Proof.
  exact (sendCommand_keeps_registries "spy A" 42 center_AB_42
           (mkCenter [mkClient 42 "Host-42" "Anonymous" 0 1 "A" 0] ["A"; "B"])
           [] eq_refl).
Defined.

Ltac run_reads_eq H :=
  repeat match type of H with
    | context [QStringList_index ?l ?i ?m] =>
        let Hq := fresh in
        destruct (QStringList_index_run l i m) as [[? Hq]|[? Hq]];
        rewrite Hq in H; clear Hq; simpl in H; try discriminate H
    | context [QString_at ?s ?i ?m] =>
        let Hq := fresh in
        destruct (QString_at_run s i m) as [[? Hq]|[? Hq]];
        rewrite Hq in H; clear Hq; simpl in H; try discriminate H
    | context [getPrompt ?sd ?m] =>
        let Hq := fresh in
        destruct (getPrompt_run sd m) as [? Hq];
        rewrite Hq in H; clear Hq; simpl in H
    | context [if ?b then _ else _] =>
        destruct b eqn:?; simpl in H; try discriminate H
    end.

(** A command emits at most one signal. A message goes to the connection
    that sent the command, never to another one; a command for a sender is
    emitted only when that sender is registered and the connection has a
    record. *)
Theorem sendCommand_signals (cmd : string) (sd : Z) (mc mc' : SCDMsgCenter)
        (out : list Signal) :
  sendCommand cmd sd mc = Ok tt mc' out ->
  out = [] \/
  (exists msg, out = [messageToClient_signal msg sd]) \/
  (exists c s, out = [commandToSender_signal c s] /\ s ∈ senders mc /\ connected sd mc).
Proof.
  intros Hrun. unfold sendCommand, processCommand in Hrun.
  unfold bind, getClient, get_clients, get_senders, ret, sendMessageToClient, emit
    in Hrun.
  simpl in Hrun. run_reads_eq Hrun;
    try (injection Hrun as _ <-; first [now left | right; left; now eexists]);
    match type of Hrun with
    | context [clients_replace ?i ?c ?m] =>
        destruct (clients_replace i c m) as [[] m1 o1|] eqn:Hrep;
        [|discriminate Hrun];
        apply clients_replace_Ok in Hrep as (Hrange & -> & ->);
        simpl in Hrun; run_reads_eq Hrun; injection Hrun as _ <-
    end;
    first [now left | right; left; now eexists | right; right].
  do 2 eexists. split; [reflexivity|]. split.
  - match goal with
    | H : contains _ _ = true |- _ => now apply bool_decide_eq_true in H
    end.
  - destruct (decide (connected sd mc)) as [Hc|Hnc]; [done|].
    simpl in Hrange. rewrite getClient_index_sentinel in Hrange by done.
    discriminate Hrange.
Qed.

Lemma sendCommand_signals_witness :
  [messageToClient_signal "pong" 42] = [] \/
  (exists msg, [messageToClient_signal "pong" 42] = [messageToClient_signal msg 42]) \/
  (exists c s, [messageToClient_signal "pong" 42] = [commandToSender_signal c s] /\
               s ∈ senders center_AB_42 /\ connected 42 center_AB_42).
Proof.
  exact (sendCommand_signals "ping" 42 center_AB_42 center_AB_42
           [messageToClient_signal "pong" 42] eq_refl).
Defined.

Lemma clients_replace_in_range (i : Z) (c : Client) (mc : SCDMsgCenter) :
  in_range i (clients mc) = true ->
  clients_replace i c mc =
  Ok tt (mkCenter (<[Z.to_nat i := c]> (clients mc)) (senders mc)) [].
Proof.
  intros H. unfold clients_replace, bind, get_clients, put_clients. simpl.
  now rewrite H.
Qed.

Lemma QStringList_index_Some (l : list string) (i : Z) (s : string) (mc : SCDMsgCenter) :
  0 <= i -> l !! Z.to_nat i = Some s -> QStringList_index l i mc = Ok s mc [].
Proof.
  intros Hi Hl. unfold QStringList_index, in_range.
  apply lookup_lt_Some in Hl as Hlt.
  replace ((0 <=? i) && (i <? Z.of_nat (length l))) with true.
  - now rewrite Hl.
  - symmetry. apply andb_true_intro. split; [apply Z.leb_le|apply Z.ltb_lt]; lia.
Qed.

Lemma QString_at_first (s : string) (mc : SCDMsgCenter) :
  isEmpty s = false -> exists c, QString_at s 0 mc = Ok c mc [].
Proof. destruct s as [|c s]; [discriminate|]. intros _. now exists c. Qed.

(** A line of an existing session whose first part can be dispatched (a line
    terminator, or a part that does not trim to the empty string) never runs
    into a range assertion: the command returns. *)
Theorem sendCommand_returns (line tok : string) (rest : list string) (sd : Z)
        (mc : SCDMsgCenter) :
  connected sd mc -> split line = tok :: rest -> dispatchable tok = true ->
  exists mc' out, sendCommand line sd mc = Ok tt mc' out.
Proof.
  intros Hc Hsplit Hsafe.
  destruct (getClient_index_found mc sd Hc) as (_ & Hrange & _).
  unfold dispatchable in Hsafe.
  unfold sendCommand, processCommand. rewrite Hsplit.
  unfold getClient, get_clients, get_senders, ret, sendMessageToClient, emit.
  unfold bind. cbv beta iota zeta.
  rewrite (QStringList_index_Some (tok :: rest) 0 tok) by done.
  cbv beta iota zeta.
  destruct (String.eqb (toLower tok) crnl || String.eqb (toLower tok) nl) eqn:Hcr;
    simpl in Hsafe |- *.
  - rewrite clients_replace_in_range by exact Hrange. simpl.
    destruct (getPrompt_run sd
                (mkCenter (<[Z.to_nat (index (getClient_from 0 (clients mc) sd))
                             := set_mode (getClient_from 0 (clients mc) sd) 0]>
                             (clients mc)) (senders mc))) as [p Hp].
    rewrite Hp. now do 2 eexists.
  - apply negb_true_iff in Hsafe.
    destruct (QString_at_first (trimmed (toLower tok)) mc Hsafe) as [c0 Hat].
    destruct rest as [|arg rest];
      [match goal with
       | |- context [1 <? Z.of_nat ?n] => change (1 <? Z.of_nat n) with false
       end|];
      repeat match goal with
        | |- context [QStringList_index (tok :: arg :: rest) 1 ?m] =>
            rewrite (QStringList_index_Some (tok :: arg :: rest) 1 arg m) by done;
            cbv beta iota
        | |- context [QString_at (trimmed (toLower tok)) 0 mc] =>
            rewrite Hat; cbv beta iota
        | |- context [getPrompt ?sd ?m] =>
            let Hq := fresh in
            destruct (getPrompt_run sd m) as [? Hq]; rewrite Hq; clear Hq;
            cbv beta iota
        | |- context [clients_replace ?i ?c ?m] =>
            rewrite (clients_replace_in_range i c m) by exact Hrange;
            cbv beta iota
        | |- context [if ?b then _ else _] => destruct b; cbv beta iota
        end; now do 2 eexists.
Qed.

Lemma sendCommand_returns_witness :
  exists mc' out, sendCommand "help me" 42 center_AB_42 = Ok tt mc' out.
Proof.
  exact (sendCommand_returns "help me" "help" ["me"] 42 center_AB_42
           connected_42 eq_refl eq_refl).
Defined.

Lemma not_dispatchable_spec (tok : string) :
  dispatchable tok = false ->
  String.eqb (toLower tok) crnl = false /\ String.eqb (toLower tok) nl = false /\
  trimmed (toLower tok) = "".
Proof.
  unfold dispatchable. rewrite !orb_false_iff, negb_false_iff.
  intros [[H1 H2] H3]. repeat split; try done.
  now destruct (trimmed (toLower tok)).
Qed.

(** The two ways a line stops the dispatcher whoever sends it: a line with no
    part at all (empty, or spaces only) stops at [list[0]]; a line whose
    first part is no line terminator and trims to the empty string stops at
    [at(0)]. *)
Theorem sendCommand_blank_line (line : string) (sd : Z) (mc : SCDMsgCenter) :
  (split line = [] -> sendCommand line sd mc = Crash QList_index_out_of_range) /\
  (forall tok rest, split line = tok :: rest -> dispatchable tok = false ->
     sendCommand line sd mc = Crash QString_at_out_of_range).
Proof.
  split.
  - apply processCommand_no_token.
  - intros tok rest Hsplit (H1 & H2 & H3)%not_dispatchable_spec.
    unfold sendCommand, processCommand. rewrite Hsplit.
    unfold bind, getClient, get_clients, get_senders, ret. simpl.
    rewrite H1, H2, H3. reflexivity.
Qed.

Lemma sendCommand_blank_line_witness :
  sendCommand "  " 42 center_AB_42 = Crash QList_index_out_of_range /\
  sendCommand (" " +:+ String CRc "" +:+ " x") 42 center_AB_42 =
    Crash QString_at_out_of_range.
Proof.
  split.
  - exact (proj1 (sendCommand_blank_line "  " 42 center_AB_42) eq_refl).
  - exact (proj2 (sendCommand_blank_line (" " +:+ String CRc "" +:+ " x") 42
                    center_AB_42) (String CRc "") ["x"] eq_refl eq_refl).
Defined.

Lemma registerMessageSender_run (x : string) (mc : SCDMsgCenter) :
  exists mc', registerMessageSender x mc = Ok tt mc' [].
Proof.
  destruct (decide (x ∈ senders mc)) as [Hin|Hnin].
  - exists mc. now apply registerMessageSender_known.
  - eexists. now apply registerMessageSender_new.
Qed.

(** Of the public calls only [sendCommand] can stop on a range assertion:
    connecting, disconnecting, registering or unregistering a sender and
    publishing return in every state. *)
Theorem only_sendCommand_stops (c : Call) (mc : SCDMsgCenter) (e : QtAssert) :
  call c mc = Crash e -> exists cmd sd, c = CallSendCommand cmd sd.
Proof.
  intros Hrun. destruct c as [sd|sd|s|s|cmd sd|msg s p].
  - exfalso. unfold call, addClient in Hrun.
    destruct (decide (connected sd mc)) as [Hc|Hnc].
    + now rewrite registerClient_known in Hrun.
    + now rewrite registerClient_new in Hrun.
  - exfalso. unfold call, removeClient in Hrun.
    destruct (decide (connected sd mc)) as [Hc|Hnc].
    + now rewrite unregisterClient_known in Hrun.
    + now rewrite unregisterClient_unknown in Hrun.
  - exfalso. unfold call, addSender in Hrun.
    destruct (registerMessageSender_run s mc) as [mc' H]. now rewrite H in Hrun.
  - exfalso. discriminate Hrun.
  - now exists cmd, sd.
  - exfalso. unfold call, postMessage, processMessage, get_clients, bind in Hrun.
    now rewrite processMessage_loop_fanout in Hrun.
Qed.

Lemma only_sendCommand_stops_witness :
  exists cmd sd, CallSendCommand "" 42 = CallSendCommand cmd sd.
Proof.
  exact (only_sendCommand_stops (CallSendCommand "" 42) center_AB_42
           QList_index_out_of_range eq_refl).
Defined.

(** ** Connecting and disconnecting *)

Lemma delete_app_last {A} (l : list A) (x : A) : delete (length l) (l ++ [x]) = l.
Proof. induction l as [|y l IH]; simpl; [done|]. now rewrite IH. Qed.

(** A connection that is added and removed again leaves the object as it
    was; the only signal is the greeting sent on connect. *)
Theorem addClient_removeClient (sd : Z) (mc : SCDMsgCenter) :
  ~ connected sd mc ->
  (addClient sd ;; removeClient sd) mc =
  Ok tt mc [messageToClient_signal (greeting sd) sd].
Proof.
  intros Hnc. unfold addClient, removeClient, bind.
  rewrite registerClient_new by done.
  set (mc1 := mkCenter (clients mc ++ [defaultClient sd]) (senders mc)).
  assert (Hc1 : connected sd mc1) by now apply connected_app_new.
  rewrite unregisterClient_known by done.
  unfold mc1. simpl.
  rewrite (getClient_from_app_new (clients mc) (defaultClient sd) 0 sd) by done.
  simpl. rewrite Z.add_0_l, Nat2Z.id, delete_app_last. now destruct mc.
Qed.

Lemma addClient_removeClient_witness :
  (addClient 7 ;; removeClient 7) center_AB_42 =
  Ok tt center_AB_42 [messageToClient_signal (greeting 7) 7].
Proof. exact (addClient_removeClient 7 center_AB_42 not_connected_7). Defined.

Lemma removeOne_app_new (x : string) (l : list string) :
  x ∉ l -> removeOne x (l ++ [x]) = l.
Proof.
  induction l as [|y l IH]; intros Hnin; simpl.
  - now rewrite String.eqb_refl.
  - apply not_elem_of_cons in Hnin as [Hne Hnin].
    destruct (String.eqb_spec y x) as [->|_]; [done|]. now rewrite IH.
Qed.

(** A sender that is registered and unregistered again leaves the object as
    it was, and no signal is emitted. *)
Theorem addSender_removeSender (x : string) (mc : SCDMsgCenter) :
  x ∉ senders mc ->
  (addSender x ;; removeSender x) mc = Ok tt mc [].
Proof.
  intros Hnin. unfold addSender, removeSender, bind.
  rewrite registerMessageSender_new by done.
  unfold unregisterMessageSender, bind, get_senders, put_senders. simpl.
  rewrite removeOne_app_new by done. now destruct mc.
Qed.

Lemma addSender_removeSender_witness :
  (addSender "C" ;; removeSender "C") center_AB_42 = Ok tt center_AB_42 [].
Proof.
  apply (addSender_removeSender "C" center_AB_42).
  apply not_in_AB; discriminate.
Defined.

Lemma filter_all {A} (P : A -> Prop) `{!forall x, Decision (P x)} (l : list A) :
  Forall P l -> filter P l = l.
Proof.
  induction 1 as [|x l Hx _ IH]; [done|].
  now rewrite filter_cons, decide_True, IH.
Qed.

(** With no two elements of the same key, deleting the element at a position
    is filtering its key out. *)
Lemma delete_first_filter {A B} `{EqDecision B} (f : A -> B) (l : list A) :
  forall k c, NoDup (f <$> l) -> l !! k = Some c ->
  delete k l = filter (fun a => f a <> f c) l.
Proof.
  induction l as [|a l IH]; intros k c Hnd Hk; [done|].
  rewrite fmap_cons in Hnd. apply NoDup_cons in Hnd as [Hfa Hnd].
  destruct k as [|k]; simpl in Hk.
  - injection Hk as ->. simpl. rewrite filter_cons, decide_False by tauto.
    symmetry. apply filter_all. apply Forall_forall. intros a Ha Heq.
    apply Hfa. rewrite <- Heq. now apply list_elem_of_fmap_2.
  - simpl. rewrite filter_cons, decide_True.
    + f_equal. now apply IH.
    + intros Heq. apply Hfa. rewrite Heq.
      apply list_elem_of_fmap_2. now apply list_elem_of_lookup_2 in Hk.
Qed.

Lemma unregisterClient_filter (mc : SCDMsgCenter) (sd : Z) :
  NoDup (socketDescriptor <$> clients mc) ->
  unregisterClient sd mc =
  Ok tt (mkCenter (filter (fun c => socketDescriptor c <> sd) (clients mc))
                  (senders mc)) [].
Proof.
  intros Hnd. destruct (decide (connected sd mc)) as [Hc|Hnc].
  - rewrite unregisterClient_known by done.
    destruct (getClient_index_found mc sd Hc) as (_ & _ & Hsd & c0 & Hc0 & Heq).
    rewrite (delete_first_filter socketDescriptor (clients mc) _ c0 Hnd Hc0).
    rewrite Heq in Hsd. simpl in Hsd. now rewrite Hsd.
  - rewrite unregisterClient_unknown by done.
    rewrite filter_all; [now destruct mc|].
    apply Forall_forall. intros c Hin Heq. apply Hnc. unfold connected.
    rewrite <- Heq. now apply list_elem_of_fmap_2.
Qed.

Lemma not_connected_filter (mc : SCDMsgCenter) (sd : Z) :
  ~ connected sd (mkCenter (filter (fun c => socketDescriptor c <> sd) (clients mc))
                           (senders mc)).
Proof.
  unfold connected. simpl. intros (c & Heq & Hin)%list_elem_of_fmap.
  apply list_elem_of_filter in Hin as [Hne _]. congruence.
Qed.

(** In a reachable state, disconnecting [sd] removes the record of [sd] and
    nothing else, keeps the order of the other records and the senders, and
    emits nothing; afterwards [sd] has no record. For a connection without a
    record this is no change. *)
Theorem removeClient_effect (sd : Z) (mc : SCDMsgCenter) :
  reachable mc ->
  let mc' := mkCenter (filter (fun c => socketDescriptor c <> sd) (clients mc))
                      (senders mc) in
  removeClient sd mc = Ok tt mc' [] /\ ~ connected sd mc' /\
  (~ connected sd mc -> mc' = mc).
Proof.
  intros [_ Hnd]%reachable_wf. cbv zeta. split; [|split].
  - now apply unregisterClient_filter.
  - apply not_connected_filter.
  - intros Hnc. rewrite filter_all; [now destruct mc|].
    apply Forall_forall. intros c Hin Heq. apply Hnc. unfold connected.
    rewrite <- Heq. now apply list_elem_of_fmap_2.
Qed.

Lemma removeClient_effect_witness :
  removeClient 2 center_three_spies =
    Ok tt (mkCenter [mkClient 1 "Host-1" "Anonymous" 0 1 "A" 0;
                     mkClient 3 "Host-3" "Anonymous" 0 1 "A" 2] ["A"]) [] /\
  removeClient 9 center_three_spies = Ok tt center_three_spies [].
Proof.
  split.
  - exact (proj1 (removeClient_effect 2 center_three_spies
                    reachable_center_three_spies)).
  - exact (proj1 (removeClient_effect 9 center_three_spies
                    reachable_center_three_spies)).
Defined.

Lemma removeOne_filter (x : string) (l : list string) :
  NoDup l -> removeOne x l = filter (fun y => y <> x) l.
Proof.
  induction 1 as [|y l Hy Hnd IH]; simpl; [done|].
  rewrite filter_cons. destruct (String.eqb_spec y x) as [->|Hne].
  - rewrite decide_False by tauto. symmetry. apply filter_all.
    apply Forall_forall. intros z Hz ->. now apply Hy.
  - rewrite decide_True by done. now rewrite IH.
Qed.

(** In a reachable state, unregistering [x] leaves exactly the other senders,
    in their order, touches no session record and emits nothing. *)
Theorem removeSender_effect (x : string) (mc : SCDMsgCenter) :
  reachable mc ->
  removeSender x mc =
  Ok tt (mkCenter (clients mc) (filter (fun y => y <> x) (senders mc))) [].
Proof.
  intros [Hnd _]%reachable_wf.
  unfold removeSender, unregisterMessageSender, bind, get_senders, put_senders.
  simpl. now rewrite removeOne_filter.
Qed.

Lemma removeSender_effect_witness :
  removeSender "A" center_AB_42 =
  Ok tt (mkCenter [mkClient 42 "Host-42" "Anonymous" 0 0 "" (-1)] ["B"]) [].
Proof. exact (removeSender_effect "A" center_AB_42 reachable_center_AB_42). Defined.

(** ** Who receives what is published *)

Lemma published_eq (t s : string) (p : bool) (mc : SCDMsgCenter) :
  published t s p mc =
  map (fun c => messageToClient_signal (composed t s p) (socketDescriptor c))
      (filter (Spying s) (clients mc)).
Proof.
  unfold published, postMessage, processMessage, get_clients, bind, composed.
  rewrite processMessage_loop_fanout. now destruct p.
Qed.

Lemma published_to (t s : string) (p : bool) (mc : SCDMsgCenter) (msg : string) (sd : Z) :
  messageToClient_signal msg sd ∈ published t s p mc <->
  msg = composed t s p /\
  exists c, c ∈ clients mc /\ socketDescriptor c = sd /\ Spying s c.
Proof.
  rewrite published_eq, list_elem_of_In, in_map_iff. split.
  - intros (c & Heq & Hin). injection Heq as <- <-.
    apply list_elem_of_In, list_elem_of_filter in Hin as [HS Hin].
    split; [done|]. now exists c.
  - intros (-> & c & Hin & <- & HS). exists c. split; [done|].
    now apply list_elem_of_In, list_elem_of_filter.
Qed.

Lemma unique_record (l : list Client) (k : nat) (c c' : Client) :
  NoDup (socketDescriptor <$> l) -> l !! k = Some c -> c' ∈ l ->
  socketDescriptor c' = socketDescriptor c -> c' = c.
Proof.
  intros Hnd Hk (j & Hj)%list_elem_of_lookup_1 Heq.
  assert (Hjk : j = k).
  { apply (NoDup_lookup _ j k (socketDescriptor c) Hnd).
    - rewrite list_lookup_fmap, Hj. simpl. now rewrite Heq.
    - now rewrite list_lookup_fmap, Hk. }
  subst j. congruence.
Qed.

(** After [clients.replace] at the position of [sd] with a record of [sd],
    in a state with one record per connection, that record is the only one
    of [sd]. *)
Lemma replaced_record_unique (mc : SCDMsgCenter) (sd : Z) (c' : Client) :
  NoDup (socketDescriptor <$> clients mc) -> connected sd mc ->
  socketDescriptor c' = sd ->
  let cs' := <[Z.to_nat (index (getClient_from 0 (clients mc) sd)) := c']> (clients mc) in
  c' ∈ cs' /\ forall c, c ∈ cs' -> socketDescriptor c = sd -> c = c'.
Proof.
  intros Hnd Hc Hsd. cbv zeta.
  destruct (getClient_index_found mc sd Hc) as (_ & _ & Hsd0 & c0 & Hc0 & Heq).
  set (k := Z.to_nat (index (getClient_from 0 (clients mc) sd))) in *.
  assert (Hk : (<[k := c']> (clients mc)) !! k = Some c').
  { apply list_lookup_insert_eq. now apply lookup_lt_Some in Hc0. }
  split; [now apply list_elem_of_lookup_2 in Hk|].
  intros c Hin Hcsd.
  apply (unique_record (<[k := c']> (clients mc)) k c' c); [|done|done|congruence].
  rewrite list_fmap_insert, list_insert_id; [done|].
  rewrite list_lookup_fmap, Hc0. simpl. f_equal.
  rewrite Heq in Hsd0. simpl in Hsd0. congruence.
Qed.

(** Unregistering a sender does not end the subscriptions to it: it touches
    no session record, so whatever is published afterwards, under that
    sender or another, reaches the same sessions as before. *)
Theorem removeSender_keeps_subscriptions (x : string) (mc : SCDMsgCenter) :
  exists mc',
    removeSender x mc = Ok tt mc' [] /\ clients mc' = clients mc /\
    forall t s p,
      postMessage t s p mc' =
      Ok tt mc' (map (fun c => messageToClient_signal (composed t s p) (socketDescriptor c))
                     (filter (Spying s) (clients mc))).
Proof.
  eexists. split; [reflexivity|]. split; [reflexivity|].
  intros t s p. unfold postMessage, processMessage, get_clients, bind, composed.
  rewrite processMessage_loop_fanout. simpl. now destruct p.
Qed.

(** A session that has just connected is in console mode: whatever is
    published reaches exactly the sessions it reached before. *)
Theorem addClient_receives_nothing (sd : Z) (mc : SCDMsgCenter) :
  ~ connected sd mc ->
  exists mc',
    addClient sd mc = Ok tt mc' [messageToClient_signal (greeting sd) sd] /\
    forall t s p, published t s p mc' = published t s p mc.
Proof.
  intros Hnc. eexists. split; [now apply registerClient_new|].
  intros t s p. rewrite !published_eq. simpl.
  rewrite filter_app. rewrite (filter_none _ [defaultClient sd]).
  - now rewrite app_nil_r.
  - apply Forall_singleton. intros [Hm _]. discriminate Hm.
Qed.

Lemma addClient_receives_nothing_witness :
  exists mc',
    addClient 7 center_three_spies = Ok tt mc' [messageToClient_signal (greeting 7) 7] /\
    forall t s p, published t s p mc' = published t s p center_three_spies.
Proof.
  apply (addClient_receives_nothing 7 center_three_spies).
  unfold connected, center_three_spies. simpl. intros H.
  apply elem_of_cons in H as [H|H]; [discriminate H|].
  apply elem_of_cons in H as [H|H]; [discriminate H|].
  apply elem_of_cons in H as [H|H]; [discriminate H|].
  now apply elem_of_nil in H.
Defined.

(** In a reachable state, once [sd] is disconnected nothing that is
    published is sent to it. *)
Theorem removeClient_stops_delivery (sd : Z) (mc : SCDMsgCenter) :
  reachable mc ->
  exists mc',
    removeClient sd mc = Ok tt mc' [] /\
    forall t s p msg, messageToClient_signal msg sd ∉ published t s p mc'.
Proof.
  intros [_ Hnd]%reachable_wf. eexists. split; [now apply unregisterClient_filter|].
  intros t s p msg (_ & c & Hin & Hsd & _)%published_to.
  apply (not_connected_filter mc sd). unfold connected.
  apply (list_elem_of_fmap_2 socketDescriptor) in Hin. now rewrite Hsd in Hin.
Qed.

Lemma removeClient_stops_delivery_witness :
  exists mc',
    removeClient 2 center_three_spies = Ok tt mc' [] /\
    forall t s p msg, messageToClient_signal msg 2 ∉ published t s p mc'.
Proof.
  exact (removeClient_stops_delivery 2 center_three_spies reachable_center_three_spies).
Defined.

(** In a reachable state, the line "\n" of an existing session is answered
    by the help text and the prompt, and ends its subscription: nothing
    published afterwards is sent to it. *)
Theorem carriage_return_unsubscribes (sd : Z) (mc : SCDMsgCenter) :
  reachable mc -> connected sd mc ->
  exists mc',
    sendCommand nl sd mc =
      Ok tt mc' [messageToClient_signal
                   (nl +:+ getHelpString +:+ nl +:+
                    name (getClient_from 0 (clients mc) sd) +:+ ":> ") sd] /\
    forall t s p msg, messageToClient_signal msg sd ∉ published t s p mc'.
Proof.
  intros [_ Hnd]%reachable_wf Hc. eexists. split; [now apply cr_command|].
  intros t s p msg (_ & c & Hin & Hsd & Hm & _)%published_to. simpl in Hin.
  destruct (getClient_index_found mc sd Hc) as (_ & _ & Hsd0 & _).
  destruct (replaced_record_unique mc sd
              (set_mode (getClient_from 0 (clients mc) sd) 0) Hnd Hc Hsd0)
    as [_ Huniq].
  rewrite (Huniq c Hin Hsd) in Hm. discriminate Hm.
Qed.

Lemma carriage_return_unsubscribes_witness :
  exists mc',
    sendCommand nl 2 center_three_spies =
      Ok tt mc' [messageToClient_signal
                   (nl +:+ getHelpString +:+ nl +:+ "Host-2:> ") 2] /\
    forall t s p msg, messageToClient_signal msg 2 ∉ published t s p mc'.
Proof.
  apply (carriage_return_unsubscribes 2 center_three_spies reachable_center_three_spies).
  unfold connected, center_three_spies. simpl.
  apply list_elem_of_further, list_elem_of_here.
Defined.

Lemma spy_run (mc : SCDMsgCenter) (sd : Z) (s : string) :
  connected sd mc -> is_token s = true -> s ∈ senders mc ->
  processCommand ("spy " +:+ s) sd mc =
  Ok tt (mkCenter (<[Z.to_nat (index (getClient_from 0 (clients mc) sd)) :=
                       set_mode (set_Sender (getClient_from 0 (clients mc) sd) s) 1]>
                     (clients mc)) (senders mc)) [].
Proof.
  intros Hc Htok Hin.
  pose proof (split_spy s Htok) as Hsplit.
  apply is_token_spec in Htok as (_ & _ & Htrim).
  destruct (getClient_index_found mc sd Hc) as (_ & Hrange & _).
  unfold processCommand. rewrite Hsplit.
  unfold bind, getClient, get_clients, get_senders, ret. simpl.
  rewrite Htrim. unfold contains. rewrite bool_decide_eq_true_2 by done.
  now rewrite clients_replace_in_range.
Qed.

(** In a reachable state, after a successful "spy s" the session is sent
    what is published under [s], and nothing that is published under any
    other sender: a session follows one sender at a time. *)
Theorem spy_subscribes (sd : Z) (s : string) (mc : SCDMsgCenter) :
  reachable mc -> connected sd mc -> is_token s = true -> s ∈ senders mc ->
  exists mc',
    sendCommand ("spy " +:+ s) sd mc = Ok tt mc' [] /\
    (forall t p, messageToClient_signal (composed t s p) sd ∈ published t s p mc') /\
    (forall t s' p msg, s' <> s -> messageToClient_signal msg sd ∉ published t s' p mc').
Proof.
  intros [_ Hnd]%reachable_wf Hc Htok Hin.
  eexists. split; [now apply spy_run|].
  destruct (getClient_index_found mc sd Hc) as (_ & _ & Hsd0 & _).
  destruct (replaced_record_unique mc sd
              (set_mode (set_Sender (getClient_from 0 (clients mc) sd) s) 1)
              Hnd Hc Hsd0) as [Hmem Huniq].
  split.
  - intros t p. apply published_to. split; [done|].
    eexists. split; [exact Hmem|]. now repeat split.
  - intros t s' p msg Hne (_ & c & Hcin & Hsd & _ & HS)%published_to.
    simpl in Hcin. rewrite (Huniq c Hcin Hsd) in HS. simpl in HS. congruence.
Qed.

Lemma spy_subscribes_witness :
  exists mc',
    sendCommand ("spy " +:+ "B") 42 center_AB_42 = Ok tt mc' [] /\
    (forall t p, messageToClient_signal (composed t "B" p) 42 ∈ published t "B" p mc') /\
    (forall t s' p msg, s' <> "B" ->
       messageToClient_signal msg 42 ∉ published t s' p mc').
Proof.
  apply (spy_subscribes 42 "B" center_AB_42 reachable_center_AB_42 connected_42 eq_refl).
  simpl. apply list_elem_of_further, list_elem_of_here.
Defined.

(** ** The verbs, on any line and for any connection *)

Lemma verb_not_terminator (cmd : string) :
  trimmed cmd <> "" -> String.eqb cmd crnl = false /\ String.eqb cmd nl = false.
Proof.
  intros Hne. split.
  - destruct (String.eqb_spec cmd crnl) as [->|_]; [now destruct Hne|done].
  - destruct (String.eqb_spec cmd nl) as [->|_]; [now destruct Hne|done].
Qed.

Lemma getPrompt_prompt_of (sd : Z) (mc : SCDMsgCenter) :
  getPrompt sd mc = Ok (prompt_of sd mc) mc [].
Proof.
  unfold prompt_of. destruct (decide (connected sd mc)) as [Hc|Hnc].
  - now apply getPrompt_connected.
  - now apply getPrompt_unknown.
Qed.

(** "exit" in any case, with white space around it or arguments after it, is
    answered by the lower-cased first part as it was typed, to any
    connection; the object is left as it was, so the session stays
    registered until [removeClient] is called. *)
Theorem exit_echo (line tok : string) (rest : list string) (sd : Z) (mc : SCDMsgCenter) :
  split line = tok :: rest -> trimmed (toLower tok) = "exit" ->
  sendCommand line sd mc = Ok tt mc [messageToClient_signal (toLower tok) sd].
Proof.
  intros Hsplit Htrim.
  destruct (verb_not_terminator (toLower tok)) as [H1 H2]; [now rewrite Htrim|].
  unfold sendCommand, processCommand. rewrite Hsplit.
  unfold bind, getClient, get_clients, get_senders, ret. simpl.
  rewrite H1, H2, Htrim. reflexivity.
Qed.

Lemma exit_echo_witness :
  sendCommand ("EXIT" +:+ crnl +:+ " now") 42 center_AB_42 =
  Ok tt center_AB_42 [messageToClient_signal ("exit" +:+ crnl) 42].
Proof.
  exact (exit_echo ("EXIT" +:+ crnl +:+ " now") ("EXIT" +:+ crnl) ["now"] 42
           center_AB_42 eq_refl eq_refl).
Defined.

(** "list" in any case, whatever follows it, is answered by one line
    "   - <sender>" per registered sender, in the order of the sender list,
    followed by the prompt of the connection (empty when it has no record);
    the object is left as it was. *)
Theorem list_reply (line tok : string) (rest : list string) (sd : Z) (mc : SCDMsgCenter) :
  split line = tok :: rest -> trimmed (toLower tok) = "list" ->
  sendCommand line sd mc =
  Ok tt mc [messageToClient_signal
              (nl +:+ list_lines (senders mc) +:+ prompt_of sd mc) sd].
Proof.
  intros Hsplit Htrim.
  destruct (verb_not_terminator (toLower tok)) as [H1 H2]; [now rewrite Htrim|].
  unfold sendCommand, processCommand. rewrite Hsplit.
  unfold bind, getClient, get_clients, get_senders, ret. simpl.
  rewrite H1, H2, Htrim. simpl. now rewrite getPrompt_prompt_of.
Qed.

Lemma list_reply_witness :
  sendCommand "LIST all" 7 center_AB_42 =
  Ok tt center_AB_42
     [messageToClient_signal (nl +:+ "   - A" +:+ nl +:+ "   - B" +:+ nl) 7].
Proof.
  exact (list_reply "LIST all" "LIST" ["all"] 7 center_AB_42 eq_refl eq_refl).
Defined.

(** "help" in any case is answered by a line feed, the help text and the
    prompt of the connection; the object is left as it was. *)
Theorem help_reply (line tok : string) (rest : list string) (sd : Z) (mc : SCDMsgCenter) :
  split line = tok :: rest -> trimmed (toLower tok) = "help" ->
  sendCommand line sd mc =
  Ok tt mc [messageToClient_signal (nl +:+ getHelpString +:+ prompt_of sd mc) sd].
Proof.
  intros Hsplit Htrim.
  destruct (verb_not_terminator (toLower tok)) as [H1 H2]; [now rewrite Htrim|].
  unfold sendCommand, processCommand. rewrite Hsplit.
  unfold bind, getClient, get_clients, get_senders, ret. simpl.
  rewrite H1, H2, Htrim. simpl. now rewrite getPrompt_prompt_of.
Qed.

Lemma help_reply_witness :
  sendCommand "Help" 42 center_AB_42 =
  Ok tt center_AB_42
     [messageToClient_signal (nl +:+ getHelpString +:+ nl +:+ "Host-42:> ") 42].
Proof. exact (help_reply "Help" "Help" [] 42 center_AB_42 eq_refl eq_refl). Defined.

(** "spy" with no argument is ignored: no reply, no change, for any
    connection. *)
Theorem spy_without_argument (line tok : string) (sd : Z) (mc : SCDMsgCenter) :
  split line = [tok] -> trimmed (toLower tok) = "spy" ->
  sendCommand line sd mc = Ok tt mc [].
Proof.
  intros Hsplit Htrim.
  destruct (verb_not_terminator (toLower tok)) as [H1 H2]; [now rewrite Htrim|].
  unfold sendCommand, processCommand. rewrite Hsplit.
  unfold bind, getClient, get_clients, get_senders, ret. simpl.
  rewrite H1, H2, Htrim. reflexivity.
Qed.

Lemma spy_without_argument_witness :
  sendCommand " SPY  " 42 center_AB_42 = Ok tt center_AB_42 [].
Proof. exact (spy_without_argument " SPY  " "SPY" 42 center_AB_42 eq_refl eq_refl). Defined.

(** A sender that is not registered is reported and nothing changes,
    whoever asks: "spy x" names the trimmed argument as typed, "@x" names
    the lower-cased id cut from the first part; the prompt follows, empty
    for a connection without a record. *)
Theorem sender_not_found (line tok : string) (rest : list string) (sd : Z)
        (mc : SCDMsgCenter) :
  split line = tok :: rest ->
  (forall arg rest', rest = arg :: rest' -> trimmed (toLower tok) = "spy" ->
     trimmed arg ∉ senders mc ->
     sendCommand line sd mc =
     Ok tt mc [messageToClient_signal
                 (nl +:+ "Sender not found: " +:+ trimmed arg +:+ prompt_of sd mc) sd]) /\
  (forall s, trimmed (toLower tok) = String "@" s -> s ∉ senders mc ->
     sendCommand line sd mc =
     Ok tt mc [messageToClient_signal
                 (nl +:+ "Sender not found: " +:+ s +:+ prompt_of sd mc) sd]).
Proof.
  intros Hsplit. split.
  - intros arg rest' -> Htrim Hnin.
    destruct (verb_not_terminator (toLower tok)) as [H1 H2]; [now rewrite Htrim|].
    unfold sendCommand, processCommand. rewrite Hsplit.
    unfold bind, getClient, get_clients, get_senders, ret. simpl.
    rewrite H1, H2, Htrim. simpl.
    replace (1 <? Z.of_nat (S (S (length rest')))) with true
      by (symmetry; apply Z.ltb_lt; lia).
    rewrite (QStringList_index_Some (tok :: arg :: rest') 1 arg) by done. simpl.
    unfold contains. rewrite bool_decide_eq_false_2 by done.
    now rewrite getPrompt_prompt_of.
  - intros s Htrim Hnin.
    destruct (verb_not_terminator (toLower tok)) as [H1 H2]; [now rewrite Htrim|].
    unfold sendCommand, processCommand. rewrite Hsplit.
    unfold bind, getClient, get_clients, get_senders, ret. simpl.
    rewrite H1, H2, Htrim. simpl.
    unfold contains. rewrite bool_decide_eq_false_2 by done.
    now rewrite getPrompt_prompt_of.
Qed.

Lemma sender_not_found_witness :
  sendCommand "spy Ghost x" 7 center_AB_42 =
    Ok tt center_AB_42
       [messageToClient_signal (nl +:+ "Sender not found: Ghost") 7] /\
  sendCommand "@Ghost x" 42 center_AB_42 =
    Ok tt center_AB_42
       [messageToClient_signal
          (nl +:+ "Sender not found: ghost" +:+ nl +:+ "Host-42:> ") 42].
Proof.
  split.
  - apply (proj1 (sender_not_found "spy Ghost x" "spy" ["Ghost"; "x"] 7
                    center_AB_42 eq_refl) "Ghost" ["x"] eq_refl eq_refl).
    apply not_in_AB; discriminate.
  - apply (proj2 (sender_not_found "@Ghost x" "@Ghost" ["x"] 42
                    center_AB_42 eq_refl) "ghost" eq_refl).
    apply not_in_AB; discriminate.
Defined.

Lemma getClient_lookup_witness :
  getClient 2 center_three_spies =
    Ok (mkClient 2 "Host-2" "Anonymous" 0 1 "A" 1) center_three_spies [] /\
  index (getClient_from 0 (clients center_three_spies) 9) = -1.
Proof.
  split.
  - exact (proj1 (getClient_lookup center_three_spies 2)).
  - apply (proj2 (proj1 (proj2 (getClient_lookup center_three_spies 9)))).
    unfold connected, center_three_spies. simpl. intros H.
    apply elem_of_cons in H as [H|H]; [discriminate H|].
    apply elem_of_cons in H as [H|H]; [discriminate H|].
    apply elem_of_cons in H as [H|H]; [discriminate H|].
    now apply elem_of_nil in H.
Defined.

Lemma at_command_lower_case_witness :
  processCommand ("@" +:+ "a" +:+ " " +:+ "  set   x ") 2 center_Aa_12 =
  Ok tt (mkCenter [mkClient 1 "Host-1" "Anonymous" 0 0 "" (-1);
                   mkClient 2 "Host-2" "Anonymous" 0 1 "a" 1] ["A"; "a"])
     [commandToSender_signal "set x" "a"].
Proof.
  apply (at_command_lower_case center_Aa_12 2 "a" "  set   x " 1
           (mkClient 2 "Host-2" "Anonymous" 0 0 "" (-1))).
  - reflexivity.
  - reflexivity.
  - reflexivity.
  - unfold center_Aa_12. simpl. apply list_elem_of_further, list_elem_of_here.
Defined.
